(** * SIT handshake (src/validators/sit_handshake.py): a shallow embedding

    The development follows the Python module top down:

    - [PyStr]      the string operations the module calls ([str.replace],
                   slicing, the ASCII test of [hmac.compare_digest]);
    - [SHA256], [HMAC]   [hashlib.sha256] and [hmac.new(..).hexdigest()],
                   written out from FIPS 180-4 and RFC 2104;
    - [PyDict], [Json]   dicts with string keys and
                   [json.dumps(.., sort_keys=True, ensure_ascii=False)];
    - [PyTime]     one concrete reading of [datetime.isoformat] and
                   [datetime.fromisoformat], used to run the model;
    - the packets ([SIT_SYN], [SIT_SYN_ACK], [SIT_ACK]), [SIT_Session] and
      the class [SIT_Handshake] with its methods;
    - [Demo]       a worked handshake;
    - the properties of the handshake, in general and on the worked one.

    Conventions.  A Python [str] is represented by its UTF-8 encoding, a Rocq
    [string]; [str.encode('utf-8')] is therefore the identity.  A [datetime]
    is a number of microseconds (naive, UTC); [uuid.uuid4()] and
    [datetime.utcnow()] are inputs of the method that calls them, one
    argument per call, in the order the source evaluates them. *)

From Stdlib Require Import ZArith List String Ascii Bool Lia DecimalString.
From stdpp Require Import gmap strings fin_maps.
Import ListNotations.

#[local] Set Warnings "-register-all".

Local Open Scope string_scope.
Local Open Scope list_scope.
Local Open Scope Z_scope.

(** ** Python strings *)

Module PyStr.

Definition byte_of (c : ascii) : Z := Z.of_N (N_of_ascii c).

Definition dquote : ascii := ascii_of_N 34.
Definition backslash : ascii := ascii_of_N 92.

Definition bytes_of (s : string) : list Z := map byte_of (list_ascii_of_string s).

(** [s.isascii()]: every code point is below 128, that is, every byte of
    the UTF-8 encoding is. *)
Fixpoint is_ascii (s : string) : bool :=
  match s with
  | EmptyString => true
  | String c r => (byte_of c <? 128) && is_ascii r
  end.

(** [s.replace('Z', '+00:00')]: every occurrence is replaced. *)
Fixpoint replace_Z (s : string) : string :=
  match s with
  | EmptyString => EmptyString
  | String c r =>
      if Ascii.eqb c "Z"%char then String.append "+00:00" (replace_Z r)
      else String c (replace_Z r)
  end.

(** A continuation byte of a UTF-8 sequence: 10xxxxxx. *)
Definition is_continuation (c : ascii) : bool :=
  (128 <=? byte_of c) && (byte_of c <? 192).

(** [s[:n]]: the first [n] code points.  A leading byte opens a code
    point, the continuation bytes after it belong to it. *)
Fixpoint prefix (n : nat) (s : string) : string :=
  match s with
  | EmptyString => EmptyString
  | String c r =>
      if is_continuation c then String c (prefix n r)
      else match n with
           | O => EmptyString
           | S n' => String c (prefix n' r)
           end
  end.

End PyStr.

(** ** hashlib.sha256 (FIPS 180-4) *)

Module SHA256.

Definition w32 (x : Z) : Z := Z.land x 0xffffffff.
Definition add32 (x y : Z) : Z := w32 (x + y).
Definition shr (n x : Z) : Z := Z.shiftr x n.
Definition rotr (n x : Z) : Z := Z.lor (Z.shiftr x n) (w32 (Z.shiftl x (32 - n))).
Definition not32 (x : Z) : Z := Z.lxor x 0xffffffff.

Definition Ch (x y z : Z) : Z := Z.lxor (Z.land x y) (Z.land (not32 x) z).
Definition Maj (x y z : Z) : Z :=
  Z.lxor (Z.lxor (Z.land x y) (Z.land x z)) (Z.land y z).
Definition Sigma0 (x : Z) : Z := Z.lxor (Z.lxor (rotr 2 x) (rotr 13 x)) (rotr 22 x).
Definition Sigma1 (x : Z) : Z := Z.lxor (Z.lxor (rotr 6 x) (rotr 11 x)) (rotr 25 x).
Definition sigma0 (x : Z) : Z := Z.lxor (Z.lxor (rotr 7 x) (rotr 18 x)) (shr 3 x).
Definition sigma1 (x : Z) : Z := Z.lxor (Z.lxor (rotr 17 x) (rotr 19 x)) (shr 10 x).

(** The first [n] primes at most 311, by trial division. *)
Definition is_prime (p : Z) : bool :=
  forallb (fun d => negb (p mod Z.of_nat d =? 0)) (seq 2 (Z.to_nat p - 2)).

Definition primes (n : nat) : list Z :=
  firstn n (filter is_prime (map Z.of_nat (seq 2 310))).

(** The integer cube root: the largest [r] below [2 ^ bits] with
    [r ^ 3 <= n], one bit at a time. *)
Fixpoint cube_root (bits : nat) (n r : Z) : Z :=
  match bits with
  | O => r
  | S b =>
      let c := r + 2 ^ Z.of_nat b in
      cube_root b n (if c ^ 3 <=? n then c else r)
  end.

(** The round constants: the first 32 bits of the fractional parts of the
    cube roots of the first 64 primes. *)
Definition K : list Z :=
  Eval vm_compute in map (fun p => w32 (cube_root 36 (p * 2 ^ 96) 0)) (primes 64).

(** The initial hash value: the first 32 bits of the fractional parts of
    the square roots of the first 8 primes. *)
Definition H0 : list Z :=
  Eval vm_compute in map (fun p => w32 (Z.sqrt (p * 2 ^ 64))) (primes 8).

(** Big-endian encoding of [x] on [n] bytes. *)
Fixpoint be_bytes (n : nat) (x : Z) : list Z :=
  match n with
  | O => []
  | S n' => (Z.shiftr x (8 * Z.of_nat n')) mod 256 :: be_bytes n' x
  end.

Definition be_word (b0 b1 b2 b3 : Z) : Z :=
  Z.lor (Z.lor (Z.shiftl b0 24) (Z.shiftl b1 16)) (Z.lor (Z.shiftl b2 8) b3).

(** Padding: a [1] bit, zeros up to 56 mod 64, the bit length on 64 bits. *)
Definition pad (msg : list Z) : list Z :=
  let len := Z.of_nat (List.length msg) in
  let zeros := Z.to_nat ((55 - len) mod 64) in
  msg ++ [0x80] ++ repeat 0 zeros ++ be_bytes 8 (8 * len).

Fixpoint words (bytes : list Z) : list Z :=
  match bytes with
  | b0 :: b1 :: b2 :: b3 :: r => be_word b0 b1 b2 b3 :: words r
  | _ => []
  end.

(** The message schedule: [w] holds the last sixteen words, oldest first. *)
Fixpoint schedule (n : nat) (w : list Z) : list Z :=
  match n with
  | O => []
  | S n' =>
      let x := add32 (add32 (sigma1 (nth 14 w 0)) (nth 9 w 0))
                     (add32 (sigma0 (nth 1 w 0)) (nth 0 w 0)) in
      x :: schedule n' (tl w ++ [x])
  end.

Record regs : Type :=
  Regs { ra : Z; rb : Z; rc : Z; rd : Z; re : Z; rf : Z; rg : Z; rh : Z }.

Definition round (r : regs) (kw : Z * Z) : regs :=
  let t1 := add32 (add32 (add32 (rh r) (Sigma1 (re r))) (Ch (re r) (rf r) (rg r)))
                  (add32 (fst kw) (snd kw)) in
  let t2 := add32 (Sigma0 (ra r)) (Maj (ra r) (rb r) (rc r)) in
  Regs (add32 t1 t2) (ra r) (rb r) (rc r) (add32 (rd r) t1) (re r) (rf r) (rg r).

Definition regs_of (h : list Z) : regs :=
  Regs (nth 0 h 0) (nth 1 h 0) (nth 2 h 0) (nth 3 h 0)
       (nth 4 h 0) (nth 5 h 0) (nth 6 h 0) (nth 7 h 0).

Definition compress (h : list Z) (block : list Z) : list Z :=
  let w := block ++ schedule 48 block in
  let r := fold_left round (combine K w) (regs_of h) in
  [ add32 (nth 0 h 0) (ra r); add32 (nth 1 h 0) (rb r);
    add32 (nth 2 h 0) (rc r); add32 (nth 3 h 0) (rd r);
    add32 (nth 4 h 0) (re r); add32 (nth 5 h 0) (rf r);
    add32 (nth 6 h 0) (rg r); add32 (nth 7 h 0) (rh r) ].

Fixpoint blocks (n : nat) (h : list Z) (ws : list Z) : list Z :=
  match n with
  | O => h
  | S n' => blocks n' (compress h (firstn 16 ws)) (skipn 16 ws)
  end.

(** [hashlib.sha256(msg).digest()], as 32 bytes. *)
Definition digest (msg : list Z) : list Z :=
  let ws := words (pad msg) in
  flat_map (be_bytes 4) (blocks (List.length ws / 16) H0 ws).

Definition hex_digit (d : Z) : ascii :=
  nth (Z.to_nat d) (list_ascii_of_string "0123456789abcdef") "0"%char.

Fixpoint hex (bytes : list Z) : string :=
  match bytes with
  | [] => EmptyString
  | b :: r => String (hex_digit (b / 16)) (String (hex_digit (b mod 16)) (hex r))
  end.

End SHA256.

(** ** hmac (RFC 2104, with SHA-256) *)

Module HMAC.

Definition block_size : nat := 64.

(** A key longer than a block is hashed first; the key is then padded with
    zero bytes to the block size. *)
Definition block_key (key : list Z) : list Z :=
  let k := if (block_size <? List.length key)%nat then SHA256.digest key else key in
  k ++ repeat 0 (block_size - List.length k).

Definition digest (key msg : list Z) : list Z :=
  let k := block_key key in
  let ipad := map (Z.lxor 0x36) k in
  let opad := map (Z.lxor 0x5c) k in
  SHA256.digest (opad ++ SHA256.digest (ipad ++ msg)).

(** [hmac.new(key, msg, hashlib.sha256).hexdigest()] *)
Definition hexdigest (key msg : string) : string :=
  SHA256.hex (digest (PyStr.bytes_of key) (PyStr.bytes_of msg)).

End HMAC.

(** ** Python dictionaries with string keys

    A [dict] keeps its items in insertion order and holds a key once.  The
    packets' [Dict] fields are of this type; the two stores of the
    handshake class, which are only read and written by key, are [gmap]s. *)

Module PyDict.

Definition dict (V : Type) : Type := list (string * V).

(** [d.get(k)] *)
Fixpoint get {V} (k : string) (d : dict V) : option V :=
  match d with
  | [] => None
  | (k', v) :: r => if String.eqb k k' then Some v else get k r
  end.

(** [d[k] = v]: an existing key keeps its place, a new key goes last. *)
Fixpoint set {V} (k : string) (v : V) (d : dict V) : dict V :=
  match d with
  | [] => [(k, v)]
  | (k', v') :: r => if String.eqb k k' then (k', v) :: r else (k', v') :: set k v r
  end.

(** [{**a, **b}]: a new dict that receives the items of [a], then those
    of [b], in order. *)
Definition merge {V} (a b : dict V) : dict V :=
  fold_left (fun d kv => set (fst kv) (snd kv) d) (a ++ b) [].

(** A well-formed dict holds a key once. *)
Definition wf {V} (d : dict V) : Prop := NoDup (map fst d).

End PyDict.

(** ** json.dumps(data, sort_keys=True, ensure_ascii=False)

    The values the packets carry: [None], booleans, integers, strings, lists
    and dicts with string keys (floats are left out of the model). *)

Module Json.

Inductive value : Type :=
| JNone
| JBool (b : bool)
| JInt (n : Z)
| JStr (s : string)
| JList (l : list value)
| JDict (d : list (string * value)).

Definition of_option_str (o : option string) : value :=
  match o with
  | Some s => JStr s
  | None => JNone
  end.

(** One character of a string literal.  With [ensure_ascii=False] only the
    quote, the backslash and the control characters below 0x20 are
    escaped. *)
Definition escape_char (c : ascii) : string :=
  let b := PyStr.byte_of c in
  let esc (x : string) := String PyStr.backslash x in
  if b =? 34 then esc (String PyStr.dquote EmptyString)
  else if b =? 92 then esc (String PyStr.backslash EmptyString)
  else if b =? 8 then esc "b"
  else if b =? 9 then esc "t"
  else if b =? 10 then esc "n"
  else if b =? 12 then esc "f"
  else if b =? 13 then esc "r"
  else if b <? 32 then
    esc (String.append "u00" (String (SHA256.hex_digit (b / 16))
                                     (String (SHA256.hex_digit (b mod 16)) EmptyString)))
  else String c EmptyString.

Fixpoint escape (s : string) : string :=
  match s with
  | EmptyString => EmptyString
  | String c r => String.append (escape_char c) (escape r)
  end.

Definition quote (s : string) : string :=
  String PyStr.dquote (String.append (escape s) (String PyStr.dquote EmptyString)).

Definition repr_int (n : Z) : string := NilZero.string_of_int (Z.to_int n).

(** Insertion sort of the items by key; keys compare as Python strings do,
    code point by code point, which on UTF-8 is byte by byte. *)
Fixpoint insert_item (kv : string * string) (l : list (string * string))
  : list (string * string) :=
  match l with
  | [] => [kv]
  | kv' :: r =>
      if String.leb (fst kv) (fst kv') then kv :: l else kv' :: insert_item kv r
  end.

Definition sort_items (l : list (string * string)) : list (string * string) :=
  fold_right insert_item [] l.

Definition item (kv : string * string) : string :=
  String.append (quote (fst kv)) (String.append ": " (snd kv)).

Fixpoint dumps (v : value) : string :=
  match v with
  | JNone => "null"
  | JBool true => "true"
  | JBool false => "false"
  | JInt n => repr_int n
  | JStr s => quote s
  | JList l =>
      String.append "[" (String.append (String.concat ", " (map dumps l)) "]")
  | JDict d =>
      let items := map (fun kv => match kv with (k, x) => (k, dumps x) end) d in
      String.append "{"
        (String.append (String.concat ", " (map item (sort_items items))) "}")
  end.

End Json.

(** ** datetime: one concrete reading

    A [datetime] is the number of microseconds since 0001-01-01T00:00:00.
    [isoformat] prints it the way [datetime.isoformat()] prints a naive
    value; [fromisoformat] reads back that shape, with or without the
    fraction and a UTC offset, and gives the wall-clock fields (what
    [.replace(tzinfo=None)] keeps).  The handshake below is stated over an
    arbitrary pair of such functions ([DatetimeLib]); these two are used to
    run it. *)

Module PyTime.

Definition datetime : Type := Z.

Definition us_per_second : Z := 1000000.
Definition us_per_day : Z := 86400 * us_per_second.

(** [timedelta(hours=1)] *)
Definition one_hour : Z := 3600 * us_per_second.

(** Days since 0001-01-01 of the civil date [y-m-d]. *)
Definition days_of_civil (y m d : Z) : Z :=
  let y' := if m <=? 2 then y - 1 else y in
  let era := y' / 400 in
  let yoe := y' - era * 400 in
  let mp := if 2 <? m then m - 3 else m + 9 in
  let doy := (153 * mp + 2) / 5 + d - 1 in
  let doe := yoe * 365 + yoe / 4 - yoe / 100 + doy in
  era * 146097 + doe - 306.

Definition civil_of_days (days : Z) : Z * Z * Z :=
  let z := days + 306 in
  let era := z / 146097 in
  let doe := z - era * 146097 in
  let yoe := (doe - doe / 1460 + doe / 36524 - doe / 146096) / 365 in
  let doy := doe - (365 * yoe + yoe / 4 - yoe / 100) in
  let mp := (5 * doy + 2) / 153 in
  let d := doy - (153 * mp + 2) / 5 + 1 in
  let m := if mp <? 10 then mp + 3 else mp - 9 in
  let y := yoe + era * 400 in
  (if m <=? 2 then y + 1 else y, m, d).

Definition digit (n : Z) : ascii := ascii_of_N (Z.to_N (48 + n mod 10)).

(** [n] printed on [w] digits, zero padded. *)
Fixpoint zfill (w : nat) (n : Z) : string :=
  match w with
  | O => EmptyString
  | S w' => String.append (zfill w' (n / 10)) (String (digit n) EmptyString)
  end.

Definition isoformat (t : datetime) : string :=
  let '(y, m, d) := civil_of_days (t / us_per_day) in
  let rest := t mod us_per_day in
  let secs := rest / us_per_second in
  let us := rest mod us_per_second in
  String.concat EmptyString
    [ zfill 4 y; "-"; zfill 2 m; "-"; zfill 2 d; "T";
      zfill 2 (secs / 3600); ":"; zfill 2 (secs / 60 mod 60); ":"; zfill 2 (secs mod 60);
      if us =? 0 then EmptyString else String.append "." (zfill 6 us) ].

(** Reads exactly [w] decimal digits. *)
Fixpoint digits (w : nat) (acc : Z) (s : string) : option (Z * string) :=
  match w with
  | O => Some (acc, s)
  | S w' =>
      match s with
      | String c r =>
          let b := PyStr.byte_of c in
          if (48 <=? b) && (b <=? 57) then digits w' (10 * acc + (b - 48)) r else None
      | EmptyString => None
      end
  end.

Definition expect (c : ascii) (s : string) : option string :=
  match s with
  | String c' r => if Ascii.eqb c c' then Some r else None
  | EmptyString => None
  end.

Definition days_in_month (y m : Z) : Z :=
  days_of_civil (if m =? 12 then y + 1 else y) (if m =? 12 then 1 else m + 1) 1
  - days_of_civil y m 1.

(** The UTC offset [+HH:MM] or [-HH:MM]; its value is not kept. *)
Definition offset (s : string) : option unit :=
  match s with
  | EmptyString => Some tt
  | String c r =>
      if Ascii.eqb c "+"%char || Ascii.eqb c "-"%char then
        match digits 2 0 r with
        | Some (h, r1) =>
            match expect ":"%char r1 with
            | Some r2 =>
                match digits 2 0 r2 with
                | Some (m, EmptyString) => if (h <? 24) && (m <? 60) then Some tt else None
                | _ => None
                end
            | None => None
            end
        | None => None
        end
      else None
  end.

Definition fraction (s : string) : option (Z * string) :=
  match s with
  | String "."%char r =>
      match digits 6 0 r with
      | Some p => Some p
      | None =>
          match digits 3 0 r with
          | Some (ms, r') => Some (1000 * ms, r')
          | None => None
          end
      end
  | _ => Some (0, s)
  end.

Definition time_of_day (s : string) : option Z :=
  match digits 2 0 s with
  | Some (h, r1) =>
      match expect ":"%char r1 with
      | Some r2 =>
          match digits 2 0 r2 with
          | Some (mi, r3) =>
              match expect ":"%char r3 with
              | Some r4 =>
                  match digits 2 0 r4 with
                  | Some (sec, r5) =>
                      match fraction r5 with
                      | Some (us, r6) =>
                          match offset r6 with
                          | Some _ =>
                              if (h <? 24) && (mi <? 60) && (sec <? 60)
                              then Some ((h * 3600 + mi * 60 + sec) * us_per_second + us)
                              else None
                          | None => None
                          end
                      | None => None
                      end
                  | None => None
                  end
              | None => None
              end
          | None => None
          end
      | None => None
      end
  | None => None
  end.

Definition fromisoformat (s : string) : option datetime :=
  match digits 4 0 s with
  | Some (y, r1) =>
      match expect "-"%char r1 with
      | Some r2 =>
          match digits 2 0 r2 with
          | Some (m, r3) =>
              match expect "-"%char r3 with
              | Some r4 =>
                  match digits 2 0 r4 with
                  | Some (d, r5) =>
                      if (1 <=? y) && (1 <=? m) && (m <=? 12) && (1 <=? d)
                         && (d <=? days_in_month y m)
                      then
                        match r5 with
                        | EmptyString => Some (days_of_civil y m d * us_per_day)
                        | String _ r6 =>
                            match time_of_day r6 with
                            | Some t => Some (days_of_civil y m d * us_per_day + t)
                            | None => None
                            end
                        end
                      else None
                  | None => None
                  end
              | None => None
              end
          | None => None
          end
      | None => None
      end
  | None => None
  end.

End PyTime.

(** ** The packets and the session (dataclasses of the module) *)

Module SIT_HandshakeState.
Inductive t : Type := INIT | SYN_SENT | SYN_RECEIVED | ESTABLISHED | FAILED | TIMEOUT.
End SIT_HandshakeState.

Module SIT_HandshakeError.
Inductive t : Type :=
| OK
| SCOPE_MISMATCH
| CONSTRAINT_CONFLICT
| SIGNATURE_INVALID
| TIMEOUT
| REQUESTER_DENIED
| SEMANTIC_INCOMPATIBLE.
End SIT_HandshakeError.

Import Json.
Abbreviation Dict := (PyDict.dict Json.value).
Abbreviation datetime := PyTime.datetime.

(** [datetime.isoformat] and [datetime.fromisoformat]; the latter gives
    [None] where Python raises [ValueError], and the wall-clock reading
    (what [.replace(tzinfo=None)] keeps) otherwise. *)
Class DatetimeLib : Type := {
  isoformat : datetime -> string;
  fromisoformat : string -> option datetime
}.

#[global] Instance py_datetime : DatetimeLib := {|
  isoformat := PyTime.isoformat;
  fromisoformat := PyTime.fromisoformat
|}.

Module SIT_SYN.
Record t : Type := Build {
  session_id : string;
  requester_id : string;
  intent_scope : string;
  semantic_boundary : Dict;
  constraints : Dict;
  timestamp : string;
  ttl_seconds : Z;
  signature : option string
}.

Definition to_dict (self : t) : Dict :=
  [ ("type", JStr "SIT-SYN");
    ("session_id", JStr (session_id self));
    ("requester_id", JStr (requester_id self));
    ("intent_scope", JStr (intent_scope self));
    ("semantic_boundary", JDict (semantic_boundary self));
    ("constraints", JDict (constraints self));
    ("timestamp", JStr (timestamp self));
    ("ttl_seconds", JInt (ttl_seconds self));
    ("signature", of_option_str (signature self)) ].

Definition with_signature (self : t) (sig : option string) : t :=
  Build (session_id self) (requester_id self) (intent_scope self)
        (semantic_boundary self) (constraints self) (timestamp self)
        (ttl_seconds self) sig.
End SIT_SYN.

Module SIT_SYN_ACK.
(** [syn_signature] receives [syn.signature] as it is, an [Optional[str]]. *)
Record t : Type := Build {
  session_id : string;
  syn_signature : option string;
  responder_id : string;
  accepted_scope : string;
  constraints_accepted : Dict;
  constraints_modified : Dict;
  session_token : string;
  timestamp : string;
  signature : option string
}.

Definition to_dict (self : t) : Dict :=
  [ ("type", JStr "SIT-SYN-ACK");
    ("session_id", JStr (session_id self));
    ("syn_signature", of_option_str (syn_signature self));
    ("responder_id", JStr (responder_id self));
    ("accepted_scope", JStr (accepted_scope self));
    ("constraints_accepted", JDict (constraints_accepted self));
    ("constraints_modified", JDict (constraints_modified self));
    ("session_token", JStr (session_token self));
    ("timestamp", JStr (timestamp self));
    ("signature", of_option_str (signature self)) ].

Definition with_signature (self : t) (sig : option string) : t :=
  Build (session_id self) (syn_signature self) (responder_id self)
        (accepted_scope self) (constraints_accepted self)
        (constraints_modified self) (session_token self) (timestamp self) sig.
End SIT_SYN_ACK.

Module SIT_ACK.
(** [syn_ack_signature] receives [syn_ack.signature] as it is. *)
Record t : Type := Build {
  session_id : string;
  session_token : string;
  syn_ack_signature : option string;
  confirmed : bool;
  semantic_mode : string;
  timestamp : string;
  signature : option string
}.

Definition to_dict (self : t) : Dict :=
  [ ("type", JStr "SIT-ACK");
    ("session_id", JStr (session_id self));
    ("session_token", JStr (session_token self));
    ("syn_ack_signature", of_option_str (syn_ack_signature self));
    ("confirmed", JBool (confirmed self));
    ("semantic_mode", JStr (semantic_mode self));
    ("timestamp", JStr (timestamp self));
    ("signature", of_option_str (signature self)) ].

Definition with_signature (self : t) (sig : option string) : t :=
  Build (session_id self) (session_token self) (syn_ack_signature self)
        (confirmed self) (semantic_mode self) (timestamp self) sig.
End SIT_ACK.

Module SIT_Session.
Record t : Type := Build {
  session_id : string;
  session_token : string;
  requester_id : string;
  responder_id : string;
  agreed_scope : string;
  agreed_constraints : Dict;
  semantic_mode : string;
  state : SIT_HandshakeState.t;
  established_at : string;
  expires_at : string;
  signature_chain : list (option string)
}.
End SIT_Session.

(** ** Results of a call *)

Inductive exception : Type := TypeError | KeyError | ValueError.

(** A call either returns a value or raises. *)
Inductive outcome (A : Type) : Type :=
| Return (a : A)
| Raise (e : exception).
Arguments Return {A} a.
Arguments Raise {A} e.

(** The [(value, error)] pair the processing methods return. *)
Abbreviation reply A := (option A * option SIT_HandshakeError.t)%type.

(** [hmac.compare_digest(a, b)] on two [str]: both must be ASCII, otherwise
    the call raises [TypeError]. *)
Definition compare_digest (a b : string) : outcome bool :=
  if PyStr.is_ascii a && PyStr.is_ascii b then Return (String.eqb a b)
  else Raise TypeError.

(** The argument of [_is_timeout]: a [datetime], or a [str] still to parse. *)
Inductive start_time : Type :=
| Instant (t : datetime)
| Text (s : string).

(** An entry of [pending_sessions]: a dict with the keys [state], [syn],
    [created_at] and, on the responder only, [syn_ack]. *)
Record pending : Type := Pending {
  pending_state : SIT_HandshakeState.t;
  pending_syn : SIT_SYN.t;
  pending_syn_ack : option SIT_SYN_ACK.t;
  created_at : datetime
}.

(** ** class SIT_Handshake *)

Record SIT_Handshake : Type := Handshake {
  secret_key : string;
  entity_id : string;
  pending_sessions : gmap string pending;
  established_sessions : gmap string SIT_Session.t
}.

(** [__init__] *)
Definition init (secret_key entity_id : string) : SIT_Handshake :=
  Handshake secret_key entity_id ∅ ∅.

Definition set_pending (self : SIT_Handshake) (p : gmap string pending) : SIT_Handshake :=
  Handshake (secret_key self) (entity_id self) p (established_sessions self).

Definition set_established (self : SIT_Handshake) (e : gmap string SIT_Session.t)
  : SIT_Handshake :=
  Handshake (secret_key self) (entity_id self) (pending_sessions self) e.

(** [_sign]: the HMAC of the canonical JSON text of [data] without its
    [signature] item. *)
Definition _sign (self : SIT_Handshake) (data : Dict) : string :=
  let data_copy := filter (fun kv => negb (String.eqb (fst kv) "signature")) data in
  let payload := Json.dumps (JDict data_copy) in
  HMAC.hexdigest (secret_key self) payload.

(** [_verify_signature]: the signature, or the empty string when it is
    [None], is compared with the digest
    recomputed under the instance's own key. *)
Definition _verify_signature (self : SIT_Handshake) (data : Dict) (signature : option string)
  : outcome bool :=
  let expected := _sign self data in
  compare_digest expected (match signature with Some s => s | None => EmptyString end).

Section Handshake.

Context {lib : DatetimeLib}.

(** [datetime.utcnow().isoformat() + "Z"] *)
Definition stamp (now : datetime) : string := String.append (isoformat now) "Z".

(** [_is_timeout]; [now] is the reading of [datetime.utcnow()].  The
    elapsed time is compared with [ttl_seconds] exactly, in microseconds
    ([total_seconds()] rounds to a double, which makes no difference to
    the comparison below 2^33 seconds, and none at all against zero). *)
Definition _is_timeout (now : datetime) (start : start_time) (ttl_seconds : Z)
  : outcome bool :=
  match start with
  | Instant t => Return (ttl_seconds * PyTime.us_per_second <? now - t)
  | Text s =>
      match fromisoformat (PyStr.replace_Z s) with
      | Some t => Return (ttl_seconds * PyTime.us_per_second <? now - t)
      | None => Raise ValueError
      end
  end.

(** *** Requester side *)

(** [create_syn]; [uuid] is [str(uuid.uuid4())], [now_stamp] the clock read
    by the packet's default timestamp and [now_created] the one stored in
    the pending entry. *)
Definition create_syn (self : SIT_Handshake) (intent_scope : string)
    (semantic_boundary : Dict) (constraints : option Dict)
    (uuid : string) (now_stamp now_created : datetime)
  : SIT_SYN.t * SIT_Handshake :=
  let session_id := uuid in
  let syn :=
    SIT_SYN.Build session_id (entity_id self) intent_scope semantic_boundary
      (match constraints with Some c => c | None => [] end)
      (stamp now_stamp) 30 None in
  let syn := SIT_SYN.with_signature syn (Some (_sign self (SIT_SYN.to_dict syn))) in
  (syn,
   set_pending self
     (<[session_id := Pending SIT_HandshakeState.SYN_SENT syn None now_created]>
        (pending_sessions self))).

(** [process_syn_ack]; the four clock readings are, in order, the one of
    [_is_timeout], of the ACK's default timestamp, of [established_at] and
    of [expires_at]. *)
Definition process_syn_ack (self : SIT_Handshake) (syn_ack : SIT_SYN_ACK.t)
    (now_check now_stamp now_established now_expires : datetime)
  : outcome (reply SIT_ACK.t) * SIT_Handshake :=
  let session_id := SIT_SYN_ACK.session_id syn_ack in
  match pending_sessions self !! session_id with
  | None => (Return (None, Some SIT_HandshakeError.SCOPE_MISMATCH), self)
  | Some pending =>
      match _verify_signature self (SIT_SYN_ACK.to_dict syn_ack)
              (SIT_SYN_ACK.signature syn_ack) with
      | Raise e => (Raise e, self)
      | Return false => (Return (None, Some SIT_HandshakeError.SIGNATURE_INVALID), self)
      | Return true =>
          if negb (bool_decide (SIT_SYN_ACK.syn_signature syn_ack
                                = SIT_SYN.signature (pending_syn pending)))
          then (Return (None, Some SIT_HandshakeError.SIGNATURE_INVALID), self)
          else
            match _is_timeout now_check (Instant (created_at pending))
                    (SIT_SYN.ttl_seconds (pending_syn pending)) with
            | Raise e => (Raise e, self)
            | Return true =>
                (Return (None, Some SIT_HandshakeError.TIMEOUT),
                 set_pending self (delete session_id (pending_sessions self)))
            | Return false =>
                let ack :=
                  SIT_ACK.Build session_id (SIT_SYN_ACK.session_token syn_ack)
                    (SIT_SYN_ACK.signature syn_ack) true
                    (String.append "shared-" (PyStr.prefix 8 session_id))
                    (stamp now_stamp) None in
                let ack := SIT_ACK.with_signature ack (Some (_sign self (SIT_ACK.to_dict ack))) in
                let session :=
                  SIT_Session.Build session_id (SIT_SYN_ACK.session_token syn_ack)
                    (entity_id self) (SIT_SYN_ACK.responder_id syn_ack)
                    (SIT_SYN_ACK.accepted_scope syn_ack)
                    (PyDict.merge (SIT_SYN_ACK.constraints_accepted syn_ack)
                                  (SIT_SYN_ACK.constraints_modified syn_ack))
                    (SIT_ACK.semantic_mode ack)
                    SIT_HandshakeState.ESTABLISHED
                    (stamp now_established)
                    (stamp (now_expires + PyTime.one_hour))
                    [ SIT_SYN.signature (pending_syn pending);
                      SIT_SYN_ACK.signature syn_ack;
                      SIT_ACK.signature ack ] in
                let self := set_established self
                              (<[session_id := session]> (established_sessions self)) in
                let self := set_pending self (delete session_id (pending_sessions self)) in
                (Return (Some ack, None), self)
            end
      end
  end.

(** *** Responder side *)

(** [process_syn]; [token] is [str(uuid.uuid4())], and the clock readings
    are the one of [_is_timeout] (taken only when the timestamp parses),
    of the SYN-ACK's default timestamp and of the pending entry.  The
    expiry check sits in a [try] whose [except] swallows every exception. *)
Definition process_syn (self : SIT_Handshake) (syn : SIT_SYN.t) (accept : bool)
    (modified_constraints : option Dict)
    (token : string) (now_check now_stamp now_created : datetime)
  : outcome (reply SIT_SYN_ACK.t) * SIT_Handshake :=
  match _verify_signature self (SIT_SYN.to_dict syn) (SIT_SYN.signature syn) with
  | Raise e => (Raise e, self)
  | Return false => (Return (None, Some SIT_HandshakeError.SIGNATURE_INVALID), self)
  | Return true =>
      let expired :=
        match fromisoformat (PyStr.replace_Z (SIT_SYN.timestamp syn)) with
        | Some syn_time =>
            match _is_timeout now_check (Instant syn_time) (SIT_SYN.ttl_seconds syn) with
            | Return b => b
            | Raise _ => false
            end
        | None => false
        end in
      if expired then (Return (None, Some SIT_HandshakeError.TIMEOUT), self)
      else if negb accept then (Return (None, Some SIT_HandshakeError.REQUESTER_DENIED), self)
      else
        let syn_ack :=
          SIT_SYN_ACK.Build (SIT_SYN.session_id syn) (SIT_SYN.signature syn)
            (entity_id self) (SIT_SYN.intent_scope syn) (SIT_SYN.constraints syn)
            (match modified_constraints with Some c => c | None => [] end)
            token (stamp now_stamp) None in
        let syn_ack :=
          SIT_SYN_ACK.with_signature syn_ack
            (Some (_sign self (SIT_SYN_ACK.to_dict syn_ack))) in
        (Return (Some syn_ack, None),
         set_pending self
           (<[SIT_SYN.session_id syn :=
                Pending SIT_HandshakeState.SYN_RECEIVED syn (Some syn_ack) now_created]>
              (pending_sessions self)))
  end.

(** [process_ack]; an entry without the [syn_ack] key (one written by
    [create_syn]) makes [pending["syn_ack"]] raise [KeyError]. *)
Definition process_ack (self : SIT_Handshake) (ack : SIT_ACK.t)
    (now_established now_expires : datetime)
  : outcome (reply SIT_Session.t) * SIT_Handshake :=
  let session_id := SIT_ACK.session_id ack in
  match pending_sessions self !! session_id with
  | None => (Return (None, Some SIT_HandshakeError.SCOPE_MISMATCH), self)
  | Some pending =>
      match _verify_signature self (SIT_ACK.to_dict ack) (SIT_ACK.signature ack) with
      | Raise e => (Raise e, self)
      | Return false => (Return (None, Some SIT_HandshakeError.SIGNATURE_INVALID), self)
      | Return true =>
          match pending_syn_ack pending with
          | None => (Raise KeyError, self)
          | Some syn_ack =>
              if negb (bool_decide (SIT_ACK.syn_ack_signature ack
                                    = SIT_SYN_ACK.signature syn_ack))
              then (Return (None, Some SIT_HandshakeError.SIGNATURE_INVALID), self)
              else if negb (String.eqb (SIT_ACK.session_token ack)
                                       (SIT_SYN_ACK.session_token syn_ack))
              then (Return (None, Some SIT_HandshakeError.SCOPE_MISMATCH), self)
              else if negb (SIT_ACK.confirmed ack)
              then (Return (None, Some SIT_HandshakeError.REQUESTER_DENIED), self)
              else
                let syn := pending_syn pending in
                let session :=
                  SIT_Session.Build session_id (SIT_ACK.session_token ack)
                    (SIT_SYN.requester_id syn) (entity_id self)
                    (SIT_SYN_ACK.accepted_scope syn_ack)
                    (PyDict.merge (SIT_SYN_ACK.constraints_accepted syn_ack)
                                  (SIT_SYN_ACK.constraints_modified syn_ack))
                    (SIT_ACK.semantic_mode ack)
                    SIT_HandshakeState.ESTABLISHED
                    (stamp now_established)
                    (stamp (now_expires + PyTime.one_hour))
                    [ SIT_SYN.signature syn;
                      SIT_SYN_ACK.signature syn_ack;
                      SIT_ACK.signature ack ] in
                let self := set_established self
                              (<[session_id := session]> (established_sessions self)) in
                let self := set_pending self (delete session_id (pending_sessions self)) in
                (Return (Some session, None), self)
          end
      end
  end.

(** *** Sessions *)

Definition get_session (self : SIT_Handshake) (session_id : string)
  : option SIT_Session.t * SIT_Handshake :=
  (established_sessions self !! session_id, self).

(** [is_session_valid]; a session object is always truthy, and the [try]
    turns a timestamp that does not parse into [False]. *)
Definition is_session_valid (self : SIT_Handshake) (session_id : string) (now : datetime)
  : bool * SIT_Handshake :=
  match established_sessions self !! session_id with
  | None => (false, self)
  | Some session =>
      match fromisoformat (PyStr.replace_Z (SIT_Session.expires_at session)) with
      | Some expires => (now <? expires, self)
      | None => (false, self)
      end
  end.

End Handshake.

(** ** Runs of the protocol *)

Section Runs.

Context {lib : DatetimeLib}.

(** A call passed signature verification: it returned, and not with
    [SIGNATURE_INVALID]. *)
Definition verified {A} (r : outcome (reply A)) : Prop :=
  exists v, r = Return v /\ v <> (None, Some SIT_HandshakeError.SIGNATURE_INVALID).

(** The session a role materializes from a SYN-ACK: the requester in
    [process_syn_ack], from the packet it receives; the responder in
    [process_ack], from the packet it kept in its pending entry. *)
Inductive materializes : SIT_SYN_ACK.t -> SIT_Session.t -> Prop :=
| by_requester self syn_ack t1 t2 t3 t4 ack self' session :
    process_syn_ack self syn_ack t1 t2 t3 t4
      = (Return (Some ack, None), self') ->
    established_sessions self' !! SIT_SYN_ACK.session_id syn_ack = Some session ->
    materializes syn_ack session
| by_responder self ack t1 t2 session self' entry syn_ack :
    process_ack self ack t1 t2 = (Return (Some session, None), self') ->
    pending_sessions self !! SIT_ACK.session_id ack = Some entry ->
    pending_syn_ack entry = Some syn_ack ->
    materializes syn_ack session.

(** A complete handshake between two instances: each packet is handed to
    the peer as it was produced, and every step succeeds. *)
Inductive complete_handshake (alice bob : SIT_Handshake)
  : SIT_SYN.t -> SIT_SYN_ACK.t -> SIT_ACK.t ->
    SIT_Handshake -> SIT_Handshake -> SIT_Session.t -> Prop :=
| Complete intent_scope semantic_boundary constraints uuid t1 t2 syn alice1
           accept modified token t3 t4 t5 syn_ack bob1
           t6 t7 t8 t9 ack alice2 t10 t11 session bob2 :
    create_syn alice intent_scope semantic_boundary constraints uuid t1 t2
      = (syn, alice1) ->
    process_syn bob syn accept modified token t3 t4 t5
      = (Return (Some syn_ack, None), bob1) ->
    process_syn_ack alice1 syn_ack t6 t7 t8 t9
      = (Return (Some ack, None), alice2) ->
    process_ack bob1 ack t10 t11 = (Return (Some session, None), bob2) ->
    complete_handshake alice bob syn syn_ack ack alice2 bob2 session.

End Runs.

(** ** A worked handshake

    Instances, the clock of [PyTime], and the packets and states of a run
    written out ([Script]) and evaluated ([AB], [CD]); they serve as
    concrete inputs below. *)

Module Demo.

(** 2025-12-29T10:00:00.123456 *)
Definition t0 : datetime := 63902599200123456.
Definition second : Z := PyTime.us_per_second.

Definition uuid : string := "123e4567-e89b-42d3-a456-426614174000".
Definition token : string := "9f1c2d3e-0a1b-4c2d-8e3f-5a6b7c8d9e0f".
Definition boundary : Dict := [("data_types", JList [JStr "profile"; JStr "transaction"])].
Definition accepted : Dict := [("max_x", JInt 1000)].
Definition modified : Dict := [("max_x", JInt 500)].

Definition alice : SIT_Handshake := init "shared-secret" "alice-001".
Definition bob : SIT_Handshake := init "shared-secret" "bob-001".

(** Two instances whose keys differ by a trailing NUL character. *)
Definition carol : SIT_Handshake := init "k" "carol-001".
Definition dave : SIT_Handshake :=
  init (String "k"%char (String (ascii_of_N 0) EmptyString)) "dave-001".

(** The run, step by step, between any two instances. *)
Module Script.
Section Run.

Variables requester responder : SIT_Handshake.

(** Step 1: the requester offers at [t0]. *)
Definition syn_unsigned : SIT_SYN.t :=
  SIT_SYN.Build uuid (entity_id requester) "read-profile" boundary accepted
    (stamp t0) 30 None.
Definition syn : SIT_SYN.t :=
  SIT_SYN.with_signature syn_unsigned
    (Some (_sign requester (SIT_SYN.to_dict syn_unsigned))).
Definition requester1 : SIT_Handshake :=
  snd (create_syn requester "read-profile" boundary (Some accepted) uuid t0 t0).

(** Step 2: the responder answers one second later and lowers [max_x]. *)
Definition syn_ack_unsigned : SIT_SYN_ACK.t :=
  SIT_SYN_ACK.Build uuid (SIT_SYN.signature syn) (entity_id responder) "read-profile"
    accepted modified token (stamp (t0 + second)) None.
Definition syn_ack : SIT_SYN_ACK.t :=
  SIT_SYN_ACK.with_signature syn_ack_unsigned
    (Some (_sign responder (SIT_SYN_ACK.to_dict syn_ack_unsigned))).
Definition responder1 : SIT_Handshake :=
  snd (process_syn responder syn true (Some modified) token
         (t0 + second) (t0 + second) (t0 + second)).

(** The entry the responder keeps meanwhile. *)
Definition entry : pending :=
  Pending SIT_HandshakeState.SYN_RECEIVED syn (Some syn_ack) (t0 + second).

(** Step 3: the requester confirms after two seconds. *)
Definition ack_unsigned : SIT_ACK.t :=
  SIT_ACK.Build uuid token (SIT_SYN_ACK.signature syn_ack) true "shared-123e4567"
    (stamp (t0 + 2 * second)) None.
Definition ack : SIT_ACK.t :=
  SIT_ACK.with_signature ack_unsigned
    (Some (_sign requester (SIT_ACK.to_dict ack_unsigned))).
Definition requester2 : SIT_Handshake :=
  snd (process_syn_ack requester1 syn_ack
         (t0 + 2 * second) (t0 + 2 * second) (t0 + 2 * second) (t0 + 2 * second)).

(** Step 4: the responder materializes its session after three seconds. *)
Definition session : SIT_Session.t :=
  SIT_Session.Build uuid token (entity_id requester) (entity_id responder)
    "read-profile" modified "shared-123e4567" SIT_HandshakeState.ESTABLISHED
    (stamp (t0 + 3 * second)) (stamp (t0 + 3 * second + PyTime.one_hour))
    [SIT_SYN.signature syn; SIT_SYN_ACK.signature syn_ack; SIT_ACK.signature ack].
Definition responder2 : SIT_Handshake :=
  snd (process_ack responder1 ack (t0 + 3 * second) (t0 + 3 * second)).

(** An ACK for the same session that carries another token, signed with
    the requester's key. *)
Definition forged_ack_unsigned : SIT_ACK.t :=
  SIT_ACK.Build uuid "another-token" (SIT_SYN_ACK.signature syn_ack) true
    "shared-123e4567" (stamp (t0 + 2 * second)) None.
Definition forged_ack : SIT_ACK.t :=
  SIT_ACK.with_signature forged_ack_unsigned
    (Some (_sign requester (SIT_ACK.to_dict forged_ack_unsigned))).

End Run.
End Script.

(** The run between alice and bob. *)
Module AB.
Definition syn : SIT_SYN.t := Eval vm_compute in Script.syn alice.
Definition requester1 : SIT_Handshake := Eval vm_compute in Script.requester1 alice.
Definition syn_ack : SIT_SYN_ACK.t := Eval vm_compute in Script.syn_ack alice bob.
Definition responder1 : SIT_Handshake := Eval vm_compute in Script.responder1 alice bob.
Definition entry : pending := Eval vm_compute in Script.entry alice bob.
Definition ack : SIT_ACK.t := Eval vm_compute in Script.ack alice bob.
Definition requester2 : SIT_Handshake := Eval vm_compute in Script.requester2 alice bob.
Definition session : SIT_Session.t := Eval vm_compute in Script.session alice bob.
Definition responder2 : SIT_Handshake := Eval vm_compute in Script.responder2 alice bob.
Definition forged_ack : SIT_ACK.t := Eval vm_compute in Script.forged_ack alice bob.
End AB.

(** The run between carol and dave. *)
Module CD.
Definition syn : SIT_SYN.t := Eval vm_compute in Script.syn carol.
Definition requester1 : SIT_Handshake := Eval vm_compute in Script.requester1 carol.
Definition syn_ack : SIT_SYN_ACK.t := Eval vm_compute in Script.syn_ack carol dave.
Definition responder1 : SIT_Handshake := Eval vm_compute in Script.responder1 carol dave.
Definition ack : SIT_ACK.t := Eval vm_compute in Script.ack carol dave.
Definition requester2 : SIT_Handshake := Eval vm_compute in Script.requester2 carol dave.
Definition session : SIT_Session.t := Eval vm_compute in Script.session carol dave.
Definition responder2 : SIT_Handshake := Eval vm_compute in Script.responder2 carol dave.
End CD.

(** A SYN-ACK for alice's session that is bound to no offer of hers and
    whose signature is the non-ASCII string U+00E9 (two bytes in UTF-8). *)
Definition e_acute : string :=
  String (ascii_of_N 195) (String (ascii_of_N 169) EmptyString).
Definition garbled_syn_ack : SIT_SYN_ACK.t :=
  SIT_SYN_ACK.Build uuid (Some "0000") "bob-001" "read-profile"
    accepted modified token (stamp (t0 + second)) (Some e_acute).

(** An offer with [ttl_seconds = 0] pending at alice since [t0], and a
    signed answer to it. *)
Definition syn0_unsigned : SIT_SYN.t :=
  SIT_SYN.Build uuid "alice-001" "read-profile" boundary accepted (stamp t0) 0 None.
Definition syn0 : SIT_SYN.t :=
  Eval vm_compute in
    SIT_SYN.with_signature syn0_unsigned
      (Some (_sign alice (SIT_SYN.to_dict syn0_unsigned))).
Definition entry0 : pending := Pending SIT_HandshakeState.SYN_SENT syn0 None t0.
Definition alice0 : SIT_Handshake :=
  Eval vm_compute in set_pending alice (<[uuid := entry0]> (pending_sessions alice)).
Definition syn_ack0_unsigned : SIT_SYN_ACK.t :=
  SIT_SYN_ACK.Build uuid (SIT_SYN.signature syn0) "bob-001" "read-profile"
    accepted [] token (stamp t0) None.
Definition syn_ack0 : SIT_SYN_ACK.t :=
  Eval vm_compute in
    SIT_SYN_ACK.with_signature syn_ack0_unsigned
      (Some (_sign bob (SIT_SYN_ACK.to_dict syn_ack0_unsigned))).

(** An offer whose timestamp is no ISO instant, with a negative ttl. *)
Definition undated_syn_unsigned : SIT_SYN.t :=
  SIT_SYN.Build uuid "alice-001" "read-profile" boundary accepted "yesterday" (-1) None.
Definition undated_syn : SIT_SYN.t :=
  Eval vm_compute in
    SIT_SYN.with_signature undated_syn_unsigned
      (Some (_sign alice (SIT_SYN.to_dict undated_syn_unsigned))).

End Demo.

(** ** Further inputs

    More packets and states around the run between alice and bob. *)

Module DemoMore.
Import Demo.

(** The offer before alice signed it, and the offer with a signature that
    is not ASCII. *)
Definition unsigned_syn : SIT_SYN.t := Eval vm_compute in Script.syn_unsigned alice.
Definition garbled_syn : SIT_SYN.t :=
  Eval vm_compute in SIT_SYN.with_signature AB.syn (Some e_acute).

(** A confirmation that declines: as alice's, with [confirmed = False]. *)
Definition declined_ack_unsigned : SIT_ACK.t :=
  SIT_ACK.Build uuid token (SIT_SYN_ACK.signature AB.syn_ack) false "shared-123e4567"
    (stamp (t0 + 2 * second)) None.
Definition declined_ack : SIT_ACK.t :=
  Eval vm_compute in
    SIT_ACK.with_signature declined_ack_unsigned
      (Some (_sign alice (SIT_ACK.to_dict declined_ack_unsigned))).

(** The same run when bob modifies nothing. *)
Definition plain_syn_ack_unsigned : SIT_SYN_ACK.t :=
  SIT_SYN_ACK.Build uuid (SIT_SYN.signature AB.syn) "bob-001" "read-profile"
    accepted [] token (stamp (t0 + second)) None.
Definition plain_syn_ack : SIT_SYN_ACK.t :=
  Eval vm_compute in
    SIT_SYN_ACK.with_signature plain_syn_ack_unsigned
      (Some (_sign bob (SIT_SYN_ACK.to_dict plain_syn_ack_unsigned))).
Definition plain_responder1 : SIT_Handshake :=
  Eval vm_compute in
    snd (process_syn bob AB.syn true None token (t0 + second) (t0 + second) (t0 + second)).
Definition plain_ack_unsigned : SIT_ACK.t :=
  SIT_ACK.Build uuid token (SIT_SYN_ACK.signature plain_syn_ack) true "shared-123e4567"
    (stamp (t0 + 2 * second)) None.
Definition plain_ack : SIT_ACK.t :=
  Eval vm_compute in
    SIT_ACK.with_signature plain_ack_unsigned
      (Some (_sign alice (SIT_ACK.to_dict plain_ack_unsigned))).
Definition plain_session : SIT_Session.t :=
  Eval vm_compute in
    SIT_Session.Build uuid token "alice-001" "bob-001" "read-profile" accepted
      "shared-123e4567" SIT_HandshakeState.ESTABLISHED
      (stamp (t0 + 2 * second)) (stamp (t0 + 2 * second + PyTime.one_hour))
      [SIT_SYN.signature AB.syn; SIT_SYN_ACK.signature plain_syn_ack;
       SIT_ACK.signature plain_ack].
Definition plain_requester2 : SIT_Handshake :=
  Eval vm_compute in
    snd (process_syn_ack AB.requester1 plain_syn_ack
           (t0 + 2 * second) (t0 + 2 * second) (t0 + 2 * second) (t0 + 2 * second)).

(** Alice after the answer to her zero-ttl offer has timed out. *)
Definition alice0_timed_out : SIT_Handshake :=
  Eval vm_compute in snd (process_syn_ack alice0 syn_ack0 (t0 + 1) t0 t0 t0).

End DemoMore.

(** ** Replies *)

(** The pairs a method may return: a value and no error, or no value and
    one of the listed errors. *)
Definition replies {A} (errors : list SIT_HandshakeError.t) (r : outcome (reply A)) : Prop :=
  match r with
  | Return (Some _, None) => True
  | Return (None, Some e) => In e errors
  | Return _ => False
  | Raise _ => True
  end.

(** * Properties *)

Module PyDictFacts.
Import PyDict.

Section Facts.
Context {V : Type}.
Implicit Types (d a b : dict V) (k : string) (v : V).

Lemma get_set k k' v d :
  get k (set k' v d) = if String.eqb k k' then Some v else get k d.
Proof.
  induction d as [|[k0 v0] r IH]; simpl; [reflexivity|].
  destruct (String.eqb_spec k' k0) as [->|Hne]; simpl.
  - destruct (String.eqb k k0); reflexivity.
  - rewrite IH. destruct (String.eqb_spec k k0) as [->|]; [|reflexivity].
    destruct (String.eqb_spec k0 k'); congruence.
Qed.

Lemma get_absent k d : ~ In k (map fst d) -> get k d = None.
Proof.
  induction d as [|[k0 v0] r IH]; simpl; intros Hk; [reflexivity|].
  destruct (String.eqb_spec k k0) as [->|]; [tauto|]. apply IH. tauto.
Qed.

Lemma get_update k (l : dict V) d :
  wf l ->
  get k (fold_left (fun d kv => set (fst kv) (snd kv) d) l d)
  = match get k l with Some v => Some v | None => get k d end.
Proof.
  revert d. induction l as [|[k1 v1] r IH]; intros d Hwf; simpl; [reflexivity|].
  apply NoDup_cons in Hwf as [Hk1 Hr].
  rewrite IH by exact Hr. rewrite get_set.
  destruct (String.eqb_spec k k1) as [->|]; [|reflexivity].
  rewrite get_absent; [reflexivity|].
  intros Hin. apply Hk1. apply list_elem_of_In. exact Hin.
Qed.

(** The overlay law of [{**a, **b}]: on a key of [b] the value of [b] wins. *)
Lemma get_merge k a b :
  wf a -> wf b ->
  get k (merge a b) = match get k b with Some v => Some v | None => get k a end.
Proof.
  intros Ha Hb. unfold merge. rewrite fold_left_app.
  rewrite get_update by exact Hb. rewrite get_update by exact Ha.
  simpl. destruct (get k b); [reflexivity|]. destruct (get k a); reflexivity.
Qed.

End Facts.
End PyDictFacts.

Module DigestFacts.

Lemma hex_digit_ascii d : (PyStr.byte_of (SHA256.hex_digit d) <? 128) = true.
Proof.
  unfold SHA256.hex_digit. generalize (Z.to_nat d). intros n.
  do 16 (destruct n as [|n]; [reflexivity|]). destruct n; reflexivity.
Qed.

Lemma hex_ascii l : PyStr.is_ascii (SHA256.hex l) = true.
Proof.
  induction l as [|b r IH]; simpl; [reflexivity|].
  rewrite !hex_digit_ascii, IH. reflexivity.
Qed.

Lemma blocks_length n : forall h ws,
  List.length h = 8%nat -> List.length (SHA256.blocks n h ws) = 8%nat.
Proof.
  induction n as [|n IH]; intros h ws Hh; simpl; [exact Hh|].
  apply IH. reflexivity.
Qed.

Lemma hexdigest_nonempty key msg : HMAC.hexdigest key msg <> EmptyString.
Proof.
  unfold HMAC.hexdigest, HMAC.digest, SHA256.digest.
  match goal with |- context [SHA256.blocks ?n ?h ?ws] =>
    pose proof (blocks_length n h ws eq_refl) as Hlen;
    destruct (SHA256.blocks n h ws) as [|x r]; [discriminate Hlen|]
  end.
  discriminate.
Qed.

Lemma hexdigest_ascii key msg : PyStr.is_ascii (HMAC.hexdigest key msg) = true.
Proof. apply hex_ascii. Qed.

End DigestFacts.

(** * Signatures *)

Lemma verify_signature_iff self data sig :
  _verify_signature self data sig = Return true <-> sig = Some (_sign self data).
Proof.
  unfold _verify_signature, compare_digest. split.
  - destruct (PyStr.is_ascii _ && PyStr.is_ascii _); [|discriminate].
    intros [= Heq]. apply String.eqb_eq in Heq. destruct sig as [s|].
    + congruence.
    + exfalso. exact (DigestFacts.hexdigest_nonempty _ _ Heq).
  - intros ->. unfold _sign at 1 2. rewrite DigestFacts.hexdigest_ascii. simpl.
    rewrite String.eqb_refl. reflexivity.
Qed.

Lemma verify_signature_raises self data sig e :
  _verify_signature self data sig = Raise e ->
  exists s, sig = Some s /\ PyStr.is_ascii s = false /\ e = TypeError.
Proof.
  unfold _verify_signature, compare_digest, _sign.
  rewrite DigestFacts.hexdigest_ascii. simpl.
  destruct sig as [s|]; simpl.
  - destruct (PyStr.is_ascii s) eqn:Hs; [discriminate|]. intros [= <-]. eauto.
  - discriminate.
Qed.

Section HandshakeFacts.
Context {lib : DatetimeLib}.


(** ** What a successful call did *)

Lemma process_syn_returns self syn accept modified token t1 t2 t3 syn_ack self' :
  process_syn self syn accept modified token t1 t2 t3 = (Return (Some syn_ack, None), self') ->
  _verify_signature self (SIT_SYN.to_dict syn) (SIT_SYN.signature syn) = Return true /\
  accept = true /\
  SIT_SYN_ACK.session_id syn_ack = SIT_SYN.session_id syn /\
  SIT_SYN_ACK.syn_signature syn_ack = SIT_SYN.signature syn /\
  SIT_SYN_ACK.accepted_scope syn_ack = SIT_SYN.intent_scope syn /\
  SIT_SYN_ACK.constraints_accepted syn_ack = SIT_SYN.constraints syn /\
  SIT_SYN_ACK.session_token syn_ack = token /\
  SIT_SYN_ACK.signature syn_ack = Some (_sign self (SIT_SYN_ACK.to_dict syn_ack)) /\
  self' = set_pending self
            (<[SIT_SYN.session_id syn :=
                 Pending SIT_HandshakeState.SYN_RECEIVED syn (Some syn_ack) t3]>
               (pending_sessions self)).
Proof.
  unfold process_syn.
  destruct (_verify_signature self _ _) as [[|]|]; try discriminate.
  destruct (match fromisoformat _ with Some _ => _ | None => _ end); try discriminate.
  destruct accept; simpl; try discriminate.
  intros [= <- <-]. repeat split; reflexivity.
Qed.

Lemma process_syn_ack_returns self syn_ack t1 t2 t3 t4 ack self' :
  process_syn_ack self syn_ack t1 t2 t3 t4 = (Return (Some ack, None), self') ->
  exists entry session,
    pending_sessions self !! SIT_SYN_ACK.session_id syn_ack = Some entry /\
    _verify_signature self (SIT_SYN_ACK.to_dict syn_ack) (SIT_SYN_ACK.signature syn_ack)
      = Return true /\
    SIT_SYN_ACK.syn_signature syn_ack = SIT_SYN.signature (pending_syn entry) /\
    SIT_ACK.session_id ack = SIT_SYN_ACK.session_id syn_ack /\
    SIT_ACK.session_token ack = SIT_SYN_ACK.session_token syn_ack /\
    SIT_ACK.syn_ack_signature ack = SIT_SYN_ACK.signature syn_ack /\
    SIT_ACK.confirmed ack = true /\
    SIT_ACK.signature ack = Some (_sign self (SIT_ACK.to_dict ack)) /\
    SIT_Session.session_id session = SIT_SYN_ACK.session_id syn_ack /\
    SIT_Session.session_token session = SIT_SYN_ACK.session_token syn_ack /\
    SIT_Session.agreed_scope session = SIT_SYN_ACK.accepted_scope syn_ack /\
    SIT_Session.agreed_constraints session
      = PyDict.merge (SIT_SYN_ACK.constraints_accepted syn_ack)
                     (SIT_SYN_ACK.constraints_modified syn_ack) /\
    established_sessions self'
      = <[SIT_SYN_ACK.session_id syn_ack := session]> (established_sessions self) /\
    pending_sessions self'
      = delete (SIT_SYN_ACK.session_id syn_ack) (pending_sessions self).
Proof.
  unfold process_syn_ack.
  destruct (pending_sessions self !! _) as [entry|] eqn:Hentry; try discriminate.
  destruct (_verify_signature self _ _) as [[|]|] eqn:Hverify; try discriminate.
  case_bool_decide as Hbind; simpl; try discriminate.
  destruct (_ <? _); simpl; try discriminate.
  intros [= <- <-]. eexists entry, _. repeat split; try reflexivity; assumption.
Qed.

Lemma process_ack_returns self ack t1 t2 session self' :
  process_ack self ack t1 t2 = (Return (Some session, None), self') ->
  exists entry syn_ack,
    pending_sessions self !! SIT_ACK.session_id ack = Some entry /\
    pending_syn_ack entry = Some syn_ack /\
    _verify_signature self (SIT_ACK.to_dict ack) (SIT_ACK.signature ack) = Return true /\
    SIT_ACK.syn_ack_signature ack = SIT_SYN_ACK.signature syn_ack /\
    SIT_ACK.session_token ack = SIT_SYN_ACK.session_token syn_ack /\
    SIT_ACK.confirmed ack = true /\
    SIT_Session.session_id session = SIT_ACK.session_id ack /\
    SIT_Session.session_token session = SIT_ACK.session_token ack /\
    SIT_Session.agreed_scope session = SIT_SYN_ACK.accepted_scope syn_ack /\
    SIT_Session.agreed_constraints session
      = PyDict.merge (SIT_SYN_ACK.constraints_accepted syn_ack)
                     (SIT_SYN_ACK.constraints_modified syn_ack) /\
    established_sessions self'
      = <[SIT_ACK.session_id ack := session]> (established_sessions self) /\
    pending_sessions self' = delete (SIT_ACK.session_id ack) (pending_sessions self).
Proof.
  unfold process_ack.
  destruct (pending_sessions self !! _) as [entry|] eqn:Hentry; try discriminate.
  destruct (_verify_signature self _ _) as [[|]|] eqn:Hverify; try discriminate.
  destruct (pending_syn_ack entry) as [syn_ack|] eqn:Hsa; try discriminate.
  case_bool_decide as Hbind; simpl; try discriminate.
  destruct (String.eqb_spec (SIT_ACK.session_token ack) (SIT_SYN_ACK.session_token syn_ack))
    as [Htok|]; simpl; try discriminate.
  destruct (SIT_ACK.confirmed ack) eqn:Hconf; simpl; try discriminate.
  intros [= <- <-]. exists entry, syn_ack. repeat split; try reflexivity; assumption.
Qed.

(** ** The two sessions of a handshake *)

(** C1.  In every complete handshake between two instances constructed with
    the same secret key (the offer of [create_syn] accepted by
    [process_syn], the answer accepted by [process_syn_ack], the
    confirmation accepted by [process_ack]), the session the requester
    stored and the session the responder stored have the same session id,
    session token, agreed scope and agreed constraints. *)
Theorem handshake_sessions_agree alice bob syn syn_ack ack alice2 bob2 session_b :
  secret_key alice = secret_key bob ->
  complete_handshake alice bob syn syn_ack ack alice2 bob2 session_b ->
  exists session_a,
    established_sessions alice2 !! SIT_SYN.session_id syn = Some session_a /\
    established_sessions bob2 !! SIT_SYN.session_id syn = Some session_b /\
    SIT_Session.session_id session_a = SIT_Session.session_id session_b /\
    SIT_Session.session_token session_a = SIT_Session.session_token session_b /\
    SIT_Session.agreed_scope session_a = SIT_Session.agreed_scope session_b /\
    SIT_Session.agreed_constraints session_a = SIT_Session.agreed_constraints session_b.
Proof.
  intros _ Hrun. destruct Hrun as [? ? ? ? ? ? syn alice1 ? ? ? ? ? ? syn_ack bob1
                                   ? ? ? ? ack alice2 ? ? session_b bob2
                                   Hsyn Hsyn_ack Hack Hsession].
  apply process_syn_returns in Hsyn_ack
    as (_ & _ & Hid & _ & _ & _ & _ & _ & Hbob1).
  apply process_syn_ack_returns in Hack
    as (entry_a & session_a & _ & _ & _ & Hack_id & Hack_tok & _ & _ & _
        & Ha_id & Ha_tok & Ha_scope & Ha_cons & Ha_est & _).
  apply process_ack_returns in Hsession
    as (entry_b & kept & Hentry_b & Hkept & _ & _ & Htok & _
        & Hb_id & Hb_tok & Hb_scope & Hb_cons & Hb_est & _).
  (* the responder kept the very answer it sent *)
  rewrite Hack_id, Hid in Hentry_b. subst bob1. simpl in Hentry_b.
  rewrite lookup_insert_eq in Hentry_b. injection Hentry_b as <-.
  simpl in Hkept. injection Hkept as <-.
  exists session_a. rewrite Ha_est, Hb_est, Hack_id, Hid, !lookup_insert_eq.
  repeat split; congruence.
Qed.

(** C2.  The session either role materializes from a SYN-ACK has, as its
    agreed constraints, the accepted constraints overlaid by the modified
    ones: on every key the modified value wins where there is one.  With
    accepted [{max_x: 1000}] and modified [{max_x: 500}] the session has
    [max_x = 500]. *)
Theorem agreed_constraints_overlay syn_ack session :
  materializes syn_ack session ->
  SIT_Session.agreed_constraints session
    = PyDict.merge (SIT_SYN_ACK.constraints_accepted syn_ack)
                   (SIT_SYN_ACK.constraints_modified syn_ack) /\
  (PyDict.wf (SIT_SYN_ACK.constraints_accepted syn_ack) ->
   PyDict.wf (SIT_SYN_ACK.constraints_modified syn_ack) ->
   forall k,
     PyDict.get k (SIT_Session.agreed_constraints session)
     = match PyDict.get k (SIT_SYN_ACK.constraints_modified syn_ack) with
       | Some v => Some v
       | None => PyDict.get k (SIT_SYN_ACK.constraints_accepted syn_ack)
       end) /\
  (SIT_SYN_ACK.constraints_accepted syn_ack = [("max_x", JInt 1000)] ->
   SIT_SYN_ACK.constraints_modified syn_ack = [("max_x", JInt 500)] ->
   PyDict.get "max_x" (SIT_Session.agreed_constraints session) = Some (JInt 500)).
Proof.
  intros Hm.
  assert (SIT_Session.agreed_constraints session
          = PyDict.merge (SIT_SYN_ACK.constraints_accepted syn_ack)
                         (SIT_SYN_ACK.constraints_modified syn_ack)) as Hmerge.
  { destruct Hm as [self syn_ack ? ? ? ? ack self' session Hcall Hstored
                   |self ack ? ? session self' entry syn_ack Hcall Hentry Hkept].
    - apply process_syn_ack_returns in Hcall
        as (? & stored & _ & _ & _ & _ & _ & _ & _ & _ & _ & _ & _ & Hcons & Hest & _).
      rewrite Hest, lookup_insert_eq in Hstored. congruence.
    - apply process_ack_returns in Hcall
        as (entry' & kept & Hentry' & Hkept' & _ & _ & _ & _ & _ & _ & _ & Hcons & _).
      congruence. }
  split; [exact Hmerge|]. rewrite Hmerge. split.
  - intros Ha Hb k. apply PyDictFacts.get_merge; assumption.
  - intros -> ->. reflexivity.
Qed.

(** ** The failure paths of [process_ack] *)

(** C3, as the code has it.  A confirmation for a pending session whose own
    signature verifies and whose [syn_ack_signature] is the stored answer's
    signature, but whose session token differs from the stored answer's, is
    rejected with [SCOPE_MISMATCH]; the state is unchanged. *)
Theorem process_ack_token_mismatch self ack t1 t2 entry syn_ack :
  pending_sessions self !! SIT_ACK.session_id ack = Some entry ->
  pending_syn_ack entry = Some syn_ack ->
  _verify_signature self (SIT_ACK.to_dict ack) (SIT_ACK.signature ack) = Return true ->
  SIT_ACK.syn_ack_signature ack = SIT_SYN_ACK.signature syn_ack ->
  SIT_ACK.session_token ack <> SIT_SYN_ACK.session_token syn_ack ->
  process_ack self ack t1 t2
    = (Return (None, Some SIT_HandshakeError.SCOPE_MISMATCH), self).
Proof.
  intros Hentry Hkept Hverify Hbind Htok. unfold process_ack.
  rewrite Hentry, Hverify, Hkept.
  rewrite bool_decide_eq_true_2 by exact Hbind. simpl.
  destruct (String.eqb_spec (SIT_ACK.session_token ack) (SIT_SYN_ACK.session_token syn_ack));
    [contradiction|reflexivity].
Qed.

(** C4.  Once [process_ack] has consumed a confirmation, processing the
    same confirmation again on the resulting instance returns
    [SCOPE_MISMATCH] and leaves the instance, pending store and session
    registry, as it was. *)
Theorem process_ack_replay self ack t1 t2 session self' t1' t2' :
  process_ack self ack t1 t2 = (Return (Some session, None), self') ->
  process_ack self' ack t1' t2'
    = (Return (None, Some SIT_HandshakeError.SCOPE_MISMATCH), self').
Proof.
  intros Hfirst.
  apply process_ack_returns in Hfirst
    as (entry & syn_ack & _ & _ & _ & _ & _ & _ & _ & _ & _ & _ & _ & Hpending).
  unfold process_ack. rewrite Hpending, lookup_delete_eq. reflexivity.
Qed.

(** ** The failure paths of [process_syn_ack] *)

(** C5.  Whatever [process_syn_ack] answers: on [TIMEOUT] the pending entry
    of that session id is gone (the other entries and the registry are
    untouched); on [SCOPE_MISMATCH] and on [SIGNATURE_INVALID] the instance
    is exactly as before; and so it is on every outcome other than success
    and [TIMEOUT]. *)
Theorem process_syn_ack_failure_state self syn_ack t1 t2 t3 t4 r self' :
  process_syn_ack self syn_ack t1 t2 t3 t4 = (r, self') ->
  (r = Return (None, Some SIT_HandshakeError.TIMEOUT) ->
     pending_sessions self' !! SIT_SYN_ACK.session_id syn_ack = None /\
     pending_sessions self'
       = delete (SIT_SYN_ACK.session_id syn_ack) (pending_sessions self) /\
     established_sessions self' = established_sessions self /\
     secret_key self' = secret_key self /\ entity_id self' = entity_id self) /\
  (r = Return (None, Some SIT_HandshakeError.SCOPE_MISMATCH) \/
   r = Return (None, Some SIT_HandshakeError.SIGNATURE_INVALID) -> self' = self) /\
  ((forall ack, r <> Return (Some ack, None)) ->
   r <> Return (None, Some SIT_HandshakeError.TIMEOUT) -> self' = self).
Proof.
  unfold process_syn_ack.
  destruct (pending_sessions self !! _) as [entry|].
  2: { intros [= <- <-]. repeat split; try discriminate; intuition discriminate. }
  destruct (_verify_signature self _ _) as [[|]|].
  2-3: intros [= <- <-]; repeat split; try discriminate; intuition discriminate.
  case_bool_decide; simpl.
  2: { intros [= <- <-]. repeat split; try discriminate; intuition discriminate. }
  destruct (_ <? _); simpl; intros [= <- <-].
  - split; [|split].
    + intros _. simpl. rewrite lookup_delete_eq. repeat split; reflexivity.
    + intros [|]; discriminate.
    + intros _ Hne. contradiction Hne. reflexivity.
  - split; [|split].
    + discriminate.
    + intros [|]; discriminate.
    + intros Hne _. exfalso. eapply Hne. reflexivity.
Qed.

(** Rejections of [process_syn_ack]: an unknown session id gives
    [SCOPE_MISMATCH]; a known one whose [syn_signature] is not the stored
    offer's signature gives [SIGNATURE_INVALID] whenever the packet's own
    signature is absent or ASCII, valid or not. *)
Lemma process_syn_ack_rejects self syn_ack t1 t2 t3 t4 :
  (pending_sessions self !! SIT_SYN_ACK.session_id syn_ack = None ->
   process_syn_ack self syn_ack t1 t2 t3 t4
     = (Return (None, Some SIT_HandshakeError.SCOPE_MISMATCH), self)) /\
  (forall entry,
     pending_sessions self !! SIT_SYN_ACK.session_id syn_ack = Some entry ->
     SIT_SYN_ACK.syn_signature syn_ack <> SIT_SYN.signature (pending_syn entry) ->
     match SIT_SYN_ACK.signature syn_ack with
     | Some s => PyStr.is_ascii s = true
     | None => True
     end ->
     process_syn_ack self syn_ack t1 t2 t3 t4
       = (Return (None, Some SIT_HandshakeError.SIGNATURE_INVALID), self)).
Proof.
  unfold process_syn_ack. split.
  - intros ->. reflexivity.
  - intros entry -> Hbind Hascii.
    destruct (_verify_signature self _ _) as [[|]|e] eqn:Hverify.
    + rewrite bool_decide_eq_false_2 by exact Hbind. reflexivity.
    + reflexivity.
    + apply verify_signature_raises in Hverify as (s & Hs & Hna & _).
      rewrite Hs in Hascii. congruence.
Qed.

(** C7.  When the pending offer has [ttl_seconds = 0], a SYN-ACK for it
    with a valid signature and the right binding, processed at any clock
    reading after the entry's creation, yields [TIMEOUT]. *)
Theorem ttl_zero_times_out self syn_ack entry now t2 t3 t4 :
  pending_sessions self !! SIT_SYN_ACK.session_id syn_ack = Some entry ->
  SIT_SYN.ttl_seconds (pending_syn entry) = 0 ->
  _verify_signature self (SIT_SYN_ACK.to_dict syn_ack) (SIT_SYN_ACK.signature syn_ack)
    = Return true ->
  SIT_SYN_ACK.syn_signature syn_ack = SIT_SYN.signature (pending_syn entry) ->
  created_at entry < now ->
  fst (process_syn_ack self syn_ack now t2 t3 t4)
    = Return (None, Some SIT_HandshakeError.TIMEOUT).
Proof.
  intros Hentry Httl Hverify Hbind Hlater. unfold process_syn_ack.
  rewrite Hentry, Hverify. rewrite bool_decide_eq_true_2 by exact Hbind.
  simpl. rewrite Httl.
  replace (0 * PyTime.us_per_second <? now - created_at entry) with true; [reflexivity|].
  symmetry. apply Z.ltb_lt. lia.
Qed.

(** ** Session validity *)

(** C8.  [is_session_valid] answers true exactly when the registry holds a
    session under that id and the clock reading is strictly before the
    instant its [expires_at] denotes; the call changes nothing. *)
Theorem is_session_valid_spec self session_id now :
  (fst (is_session_valid self session_id now) = true <->
   exists session expires,
     established_sessions self !! session_id = Some session /\
     fromisoformat (PyStr.replace_Z (SIT_Session.expires_at session)) = Some expires /\
     now < expires) /\
  snd (is_session_valid self session_id now) = self.
Proof.
  unfold is_session_valid.
  destruct (established_sessions self !! session_id) as [session|].
  2: { split; [|reflexivity]. split; [discriminate|]. intros (? & ? & [=] & _). }
  destruct (fromisoformat _) as [expires|] eqn:Hparse; (split; [|reflexivity]); simpl.
  - rewrite Z.ltb_lt. split.
    + intros Hlt. exists session, expires. auto.
    + intros (? & ? & [= <-] & Hp & Hlt). congruence.
  - split; [discriminate|]. intros (? & ? & [= <-] & Hp & _). congruence.
Qed.

(** ** The responder's checks on an offer *)

(** C9.  When the offer's timestamp does not parse, [process_syn] skips the
    expiry check: with a valid signature and [accept = True] it returns a
    SYN-ACK, whatever [ttl_seconds] and the clock are. *)
Theorem process_syn_unparsable_timestamp self syn modified token t1 t2 t3 :
  fromisoformat (PyStr.replace_Z (SIT_SYN.timestamp syn)) = None ->
  _verify_signature self (SIT_SYN.to_dict syn) (SIT_SYN.signature syn) = Return true ->
  exists syn_ack,
    fst (process_syn self syn true modified token t1 t2 t3) = Return (Some syn_ack, None) /\
    SIT_SYN_ACK.session_id syn_ack = SIT_SYN.session_id syn /\
    fst (process_syn self syn true modified token t1 t2 t3)
      <> Return (None, Some SIT_HandshakeError.TIMEOUT).
Proof.
  intros Hparse Hverify. unfold process_syn. rewrite Hverify, Hparse. simpl.
  eexists. repeat split. discriminate.
Qed.

(** C10, as the code has it.  [process_syn] verifies the offer against the
    HMAC recomputed under the responder's own key: the offer passes
    verification exactly when its signature is that HMAC.  Hence an offer
    made by [create_syn] on another instance passes only if its HMAC under
    the requester's key equals its HMAC under the responder's key, and it
    does pass when the two keys are equal. *)
Theorem verification_under_own_key alice bob intent_scope semantic_boundary constraints
    uuid t1 t2 syn alice1 accept modified token t3 t4 t5 :
  create_syn alice intent_scope semantic_boundary constraints uuid t1 t2 = (syn, alice1) ->
  let r := fst (process_syn bob syn accept modified token t3 t4 t5) in
  (verified r <-> SIT_SYN.signature syn = Some (_sign bob (SIT_SYN.to_dict syn))) /\
  (verified r -> _sign alice (SIT_SYN.to_dict syn) = _sign bob (SIT_SYN.to_dict syn)) /\
  (secret_key alice = secret_key bob -> verified r).
Proof.
  intros Hcreate r.
  assert (SIT_SYN.signature syn = Some (_sign alice (SIT_SYN.to_dict syn))) as Hsigned.
  { unfold create_syn in Hcreate. injection Hcreate as <- _. reflexivity. }
  assert (verified r <-> SIT_SYN.signature syn = Some (_sign bob (SIT_SYN.to_dict syn)))
    as Hiff.
  { rewrite <- verify_signature_iff. subst r. unfold process_syn, verified.
    destruct (_verify_signature bob _ _) as [[|]|e].
    - split; [reflexivity|]. intros _.
      destruct (match fromisoformat _ with Some _ => _ | None => _ end);
        [|destruct accept]; simpl; eexists; (split; [reflexivity|discriminate]).
    - split; [|discriminate]. intros (v & [= <-] & Hv). contradiction Hv. reflexivity.
    - split; [|discriminate]. intros (v & [=] & _). }
  split; [exact Hiff|]. split.
  - intros Hv. apply Hiff in Hv. congruence.
  - intros Hkey. apply Hiff. rewrite Hsigned. unfold _sign. rewrite Hkey. reflexivity.
Qed.

(** ** Liveness *)


End HandshakeFacts.

(** * The properties on the worked handshake *)

Module DemoFacts.
Import Demo.

(** The four steps of a worked handshake, checked by evaluation. *)
Ltac run requester responder syn requester1 syn_ack responder1 ack requester2
         session responder2 :=
  apply (Complete requester responder
           "read-profile" boundary (Some accepted) uuid t0 t0 syn requester1
           true (Some modified) token (t0 + second) (t0 + second) (t0 + second)
           syn_ack responder1
           (t0 + 2 * second) (t0 + 2 * second) (t0 + 2 * second) (t0 + 2 * second)
           ack requester2 (t0 + 3 * second) (t0 + 3 * second) session responder2);
  vm_compute; reflexivity.

Lemma handshake_sessions_agree_witness :
  exists session_a,
    established_sessions AB.requester2 !! SIT_SYN.session_id AB.syn
      = Some session_a /\
    established_sessions AB.responder2 !! SIT_SYN.session_id AB.syn
      = Some AB.session /\
    SIT_Session.session_id session_a = SIT_Session.session_id AB.session /\
    SIT_Session.session_token session_a = SIT_Session.session_token AB.session /\
    SIT_Session.agreed_scope session_a = SIT_Session.agreed_scope AB.session /\
    SIT_Session.agreed_constraints session_a
      = SIT_Session.agreed_constraints AB.session.
Proof.
  apply (handshake_sessions_agree alice bob AB.syn AB.syn_ack
           AB.ack).
  - reflexivity.
  - run alice bob AB.syn AB.requester1 AB.syn_ack AB.responder1
        AB.ack AB.requester2 AB.session AB.responder2.
Defined.

Lemma agreed_constraints_overlay_witness :
  materializes AB.syn_ack AB.session /\
  PyDict.get "max_x" (SIT_Session.agreed_constraints AB.session)
    = Some (JInt 500).
Proof.
  assert (materializes AB.syn_ack AB.session) as Hm.
  { apply (by_responder AB.responder1 AB.ack
             (t0 + 3 * second) (t0 + 3 * second)
             AB.session AB.responder2 AB.entry);
      vm_compute; reflexivity. }
  split; [exact Hm|].
  apply (agreed_constraints_overlay AB.syn_ack AB.session Hm);
    reflexivity.
Defined.

Lemma process_ack_token_mismatch_witness :
  process_ack AB.responder1 AB.forged_ack t0 t0
    = (Return (None, Some SIT_HandshakeError.SCOPE_MISMATCH), AB.responder1).
Proof.
  apply (process_ack_token_mismatch AB.responder1 AB.forged_ack
           t0 t0 AB.entry AB.syn_ack).
  - vm_compute; reflexivity.
  - reflexivity.
  - vm_compute; reflexivity.
  - reflexivity.
  - vm_compute. discriminate.
Defined.

(** C3 as stated fails: the forged confirmation meets every premise, its
    session token is not the stored one, and the answer is not
    [SIGNATURE_INVALID]. *)
Lemma process_ack_token_mismatch_counterexample :
  pending_sessions AB.responder1 !! SIT_ACK.session_id AB.forged_ack
    = Some AB.entry /\
  pending_syn_ack AB.entry = Some AB.syn_ack /\
  _verify_signature AB.responder1 (SIT_ACK.to_dict AB.forged_ack)
    (SIT_ACK.signature AB.forged_ack) = Return true /\
  SIT_ACK.syn_ack_signature AB.forged_ack
    = SIT_SYN_ACK.signature AB.syn_ack /\
  SIT_ACK.session_token AB.forged_ack
    <> SIT_SYN_ACK.session_token AB.syn_ack /\
  fst (process_ack AB.responder1 AB.forged_ack t0 t0)
    = Return (None, Some SIT_HandshakeError.SCOPE_MISMATCH) /\
  fst (process_ack AB.responder1 AB.forged_ack t0 t0)
    <> Return (None, Some SIT_HandshakeError.SIGNATURE_INVALID).
Proof.
  split; [vm_compute; reflexivity|].
  split; [reflexivity|].
  split; [vm_compute; reflexivity|].
  split; [reflexivity|].
  split; [vm_compute; discriminate|].
  split; [vm_compute; reflexivity|].
  vm_compute; discriminate.
Qed.

Lemma process_ack_replay_witness :
  process_ack AB.responder2 AB.ack (t0 + 4 * second) (t0 + 4 * second)
    = (Return (None, Some SIT_HandshakeError.SCOPE_MISMATCH), AB.responder2).
Proof.
  apply (process_ack_replay AB.responder1 AB.ack
           (t0 + 3 * second) (t0 + 3 * second) AB.session).
  vm_compute; reflexivity.
Defined.

Lemma process_syn_ack_failure_state_witness :
  pending_sessions (snd (process_syn_ack alice0 syn_ack0 (t0 + 1) t0 t0 t0)) !! uuid = None /\
  established_sessions (snd (process_syn_ack alice0 syn_ack0 (t0 + 1) t0 t0 t0))
    = established_sessions alice0.
Proof.
  destruct (process_syn_ack_failure_state alice0 syn_ack0 (t0 + 1) t0 t0 t0
              (Return (None, Some SIT_HandshakeError.TIMEOUT))
              (snd (process_syn_ack alice0 syn_ack0 (t0 + 1) t0 t0 t0)))
    as [Htimeout _].
  - vm_compute; reflexivity.
  - destruct (Htimeout eq_refl) as (Hgone & _ & Hest & _). split; assumption.
Defined.

(** C6 fails on a signature that is not ASCII.  The session id is pending
    at alice and the packet's [syn_signature] is not her offer's signature,
    yet [process_syn_ack] raises [TypeError] (from [hmac.compare_digest])
    where the claim promises [SIGNATURE_INVALID]. *)
Theorem process_syn_ack_non_ascii_signature :
  pending_sessions AB.requester1 !! SIT_SYN_ACK.session_id garbled_syn_ack
    = Some (Pending SIT_HandshakeState.SYN_SENT AB.syn None t0) /\
  SIT_SYN_ACK.syn_signature garbled_syn_ack <> SIT_SYN.signature AB.syn /\
  process_syn_ack AB.requester1 garbled_syn_ack
    (t0 + second) (t0 + second) (t0 + second) (t0 + second)
    = (Raise TypeError, AB.requester1).
Proof.
  split; [vm_compute; reflexivity|].
  split; [vm_compute; discriminate|].
  vm_compute; reflexivity.
Qed.

Lemma ttl_zero_times_out_witness :
  fst (process_syn_ack alice0 syn_ack0 (t0 + 1) t0 t0 t0)
    = Return (None, Some SIT_HandshakeError.TIMEOUT).
Proof.
  apply (ttl_zero_times_out alice0 syn_ack0 entry0).
  - vm_compute; reflexivity.
  - reflexivity.
  - vm_compute; reflexivity.
  - reflexivity.
  - unfold entry0, created_at. lia.
Defined.

Lemma process_syn_unparsable_timestamp_witness :
  exists syn_ack,
    fst (process_syn bob undated_syn true None token t0 t0 t0) = Return (Some syn_ack, None) /\
    SIT_SYN_ACK.session_id syn_ack = SIT_SYN.session_id undated_syn /\
    fst (process_syn bob undated_syn true None token t0 t0 t0)
      <> Return (None, Some SIT_HandshakeError.TIMEOUT).
Proof.
  apply (process_syn_unparsable_timestamp bob undated_syn None token t0 t0 t0).
  - vm_compute; reflexivity.
  - vm_compute; reflexivity.
Defined.

Lemma verification_under_own_key_witness :
  verified (fst (process_syn bob AB.syn true (Some modified) token
                   (t0 + second) (t0 + second) (t0 + second))) /\
  _sign alice (SIT_SYN.to_dict AB.syn) = _sign bob (SIT_SYN.to_dict AB.syn).
Proof.
  destruct (verification_under_own_key alice bob "read-profile" boundary (Some accepted)
              uuid t0 t0 AB.syn AB.requester1
              true (Some modified) token (t0 + second) (t0 + second) (t0 + second))
    as (_ & Hsame & Hpass).
  - vm_compute; reflexivity.
  - split; [|apply Hsame]; apply Hpass; reflexivity.
Defined.

(** C10 as stated fails: carol and dave were constructed with different
    keys, one a single letter and the other the same letter followed by
    NUL, which HMAC pads to the same block; their handshake completes. *)
Lemma verification_under_own_key_counterexample :
  secret_key carol <> secret_key dave /\
  complete_handshake carol dave CD.syn CD.syn_ack CD.ack
    CD.requester2 CD.responder2 CD.session.
Proof.
  split.
  - vm_compute. discriminate.
  - run carol dave CD.syn CD.requester1 CD.syn_ack CD.responder1
        CD.ack CD.requester2 CD.session CD.responder2.
Qed.

(** Both sessions of the worked handshake are valid at once, and no longer
    at the instant of their expiry, one hour after they were stored. *)
Example session_valid_then_expired :
  fst (is_session_valid AB.requester2 uuid (t0 + 2 * second)) = true /\
  fst (is_session_valid AB.responder2 uuid (t0 + 3 * second)) = true /\
  fst (is_session_valid AB.requester2 uuid (t0 + 2 * second + PyTime.one_hour))
    = false /\
  fst (is_session_valid AB.responder2 uuid (t0 + 3 * second + PyTime.one_hour))
    = false.
Proof.
  split; [vm_compute; reflexivity|].
  split; [vm_compute; reflexivity|].
  split; vm_compute; reflexivity.
Qed.

End DemoFacts.

(** * Further properties *)


Module CanonicalFacts.

(** The order on keys. *)
Lemma ascii_compare_refl a : Ascii.compare a a = Eq.
Proof. apply N.compare_refl. Qed.

Lemma leb_trans s1 : forall s2 s3,
  String.leb s1 s2 = true -> String.leb s2 s3 = true -> String.leb s1 s3 = true.
Proof.
  unfold String.leb.
  induction s1 as [|a s1 IH]; intros [|b s2] [|c s3]; simpl; try easy.
  destruct (Ascii.compare a b) eqn:Hab; try easy.
  - apply Ascii.compare_eq_iff in Hab as ->.
    destruct (Ascii.compare b c); try easy. apply IH.
  - intros _. destruct (Ascii.compare b c) eqn:Hbc; try easy.
    + apply Ascii.compare_eq_iff in Hbc as <-. rewrite Hab. reflexivity.
    + intros _. unfold Ascii.compare in *.
      rewrite N.compare_lt_iff in Hab, Hbc.
      replace (N_of_ascii a ?= N_of_ascii c)%N with Lt; [reflexivity|].
      symmetry. apply N.compare_lt_iff. lia.
Qed.

Lemma leb_false_flip s1 s2 : String.leb s1 s2 = false -> String.leb s2 s1 = true.
Proof. destruct (String.leb_total s1 s2) as [H|H]; congruence. Qed.

(** Two insertions of items with distinct keys commute. *)
Lemma insert_item_comm x y l :
  fst x <> fst y ->
  insert_item x (insert_item y l) = insert_item y (insert_item x l).
Proof.
  intros Hne. induction l as [|z r IH]; simpl.
  - destruct (String.leb (fst x) (fst y)) eqn:Hxy, (String.leb (fst y) (fst x)) eqn:Hyx;
      try reflexivity.
    + contradiction Hne. apply String.leb_antisym; assumption.
    + apply leb_false_flip in Hxy. congruence.
  - destruct (String.leb (fst y) (fst z)) eqn:Hyz, (String.leb (fst x) (fst z)) eqn:Hxz;
      simpl; rewrite ?Hyz, ?Hxz.
    + destruct (String.leb (fst x) (fst y)) eqn:Hxy, (String.leb (fst y) (fst x)) eqn:Hyx;
        simpl; rewrite ?Hxz, ?Hyz; try reflexivity.
      * contradiction Hne. apply String.leb_antisym; assumption.
      * apply leb_false_flip in Hxy. congruence.
    + destruct (String.leb (fst x) (fst y)) eqn:Hxy; [|reflexivity].
      rewrite (leb_trans _ _ _ Hxy Hyz) in Hxz. discriminate.
    + destruct (String.leb (fst y) (fst x)) eqn:Hyx; [|reflexivity].
      rewrite (leb_trans _ _ _ Hyx Hxz) in Hyz. discriminate.
    + rewrite IH. reflexivity.
Qed.

Lemma sort_items_perm l l' :
  Permutation l l' -> NoDup (map fst l) -> sort_items l = sort_items l'.
Proof.
  unfold sort_items. induction 1 as [|x l l' Hp IH|x y l|l l' l'' Hp1 IH1 Hp2 IH2];
    simpl; intros Hnd.
  - reflexivity.
  - rewrite IH; [reflexivity|]. apply NoDup_cons in Hnd as [_ Hnd]. exact Hnd.
  - apply insert_item_comm. apply NoDup_cons in Hnd as [Hy _].
    intros Heq. apply Hy. rewrite Heq. left.
  - rewrite IH1 by exact Hnd. apply IH2.
    pose proof (Permutation_map fst Hp1) as Hkeys. rewrite <- Hkeys. exact Hnd.
Qed.

End CanonicalFacts.

(** [json.dumps(.., sort_keys=True)] of a dict does not depend on the order
    in which the dict received its items. *)
Lemma dumps_insertion_order (d d' : Dict) :
  Permutation d d' -> PyDict.wf d -> dumps (JDict d) = dumps (JDict d').
Proof.
  intros Hp Hwf. simpl. do 3 f_equal. f_equal.
  apply CanonicalFacts.sort_items_perm.
  - apply Permutation_map. exact Hp.
  - rewrite map_map. unfold PyDict.wf in Hwf.
    erewrite map_ext; [exact Hwf|]. intros [k v]. reflexivity.
Qed.

(** X1.  A signature does not depend on the order of the packet's items:
    two dicts with the same items, each key once, sign alike. *)
Theorem sign_insertion_order self (data data' : Dict) :
  Permutation data data' -> PyDict.wf data -> _sign self data = _sign self data'.
Proof.
  intros Hp Hwf. unfold _sign. f_equal. apply dumps_insertion_order.
  - unfold PyDict.dict in *. rewrite Hp. reflexivity.
  - unfold PyDict.wf, PyDict.dict in *. clear Hp. induction data as [|[k v] r IH].
    + constructor.
    + apply NoDup_cons in Hwf as [Hk Hr]. rewrite filter_cons.
      case_decide; simpl; [|auto]. apply NoDup_cons. split; [|auto].
      intros Hin. apply Hk. apply list_elem_of_In in Hin. apply list_elem_of_In.
      apply in_map_iff in Hin as ([k' v'] & Heq & Hin). simpl in Heq. subst k'.
      apply in_map_iff. exists (k, v'). split; [reflexivity|].
      apply list_elem_of_In in Hin. apply list_elem_of_filter in Hin as [_ Hin].
      apply list_elem_of_In. exact Hin.
Qed.

(** X2.  The signature covers every item but the signature itself: setting
    the [signature] item of a dict, present or not, leaves [_sign]
    unchanged. *)
Theorem sign_ignores_signature self (data : Dict) v :
  _sign self (PyDict.set "signature" v data) = _sign self data.
Proof.
  unfold _sign, PyDict.dict in *. do 3 f_equal.
  induction data as [|[k x] r IH].
  - reflexivity.
  - cbn [PyDict.set]. destruct (String.eqb_spec "signature" k) as [<-|Hne].
    + rewrite !filter_cons_False; [reflexivity| |]; simpl; intros H; exact H.
    + rewrite !filter_cons, IH. reflexivity.
Qed.

Module KeyFacts.

Lemma bytes_of_append s1 s2 :
  PyStr.bytes_of (String.append s1 s2) = PyStr.bytes_of s1 ++ PyStr.bytes_of s2.
Proof.
  unfold PyStr.bytes_of. induction s1 as [|c r IH]; simpl; [reflexivity|].
  f_equal. exact IH.
Qed.

Lemma length_bytes_of s : List.length (PyStr.bytes_of s) = String.length s.
Proof.
  unfold PyStr.bytes_of. induction s as [|c r IH]; simpl; [reflexivity|].
  f_equal. exact IH.
Qed.

(** Below the block size a trailing zero byte disappears in the padding. *)
Lemma block_key_nul key :
  (List.length key < HMAC.block_size)%nat ->
  HMAC.block_key (key ++ [0]) = HMAC.block_key key.
Proof.
  unfold HMAC.block_key, HMAC.block_size. intros Hlen.
  rewrite !List.length_app. simpl List.length.
  replace (64 <? List.length key + 1)%nat with false
    by (symmetry; apply Nat.ltb_ge; lia).
  replace (64 <? List.length key)%nat with false
    by (symmetry; apply Nat.ltb_ge; lia).
  rewrite List.length_app. simpl List.length. rewrite <- List.app_assoc. f_equal.
  replace (64 - List.length key)%nat with (S (64 - (List.length key + 1)))%nat by lia.
  reflexivity.
Qed.

Lemma length_be_bytes n x : List.length (SHA256.be_bytes n x) = n.
Proof. induction n as [|n IH]; simpl; [reflexivity|]. f_equal. exact IH. Qed.

Lemma length_digest msg : List.length (SHA256.digest msg) = 32%nat.
Proof.
  unfold SHA256.digest.
  match goal with |- context [SHA256.blocks ?n ?h ?ws] =>
    pose proof (DigestFacts.blocks_length n h ws eq_refl) as Hlen;
    destruct (SHA256.blocks n h ws) as [|x0 [|x1 [|x2 [|x3 [|x4 [|x5 [|x6 [|x7 [|]]]]]]]]];
    try discriminate Hlen
  end.
  reflexivity.
Qed.

Lemma length_hex l : String.length (SHA256.hex l) = (2 * List.length l)%nat.
Proof. induction l as [|b r IH]; simpl; [reflexivity|]. rewrite IH. lia. Qed.

End KeyFacts.

(** X3.  Secret keys that differ by a trailing NUL character sign alike:
    for a key shorter than the 64-byte HMAC block, an instance constructed
    with the key and one constructed with the key followed by NUL compute
    the same signature for every packet. *)
Theorem sign_trailing_nul key entity_id entity_id' (data : Dict) :
  (String.length key < 64)%nat ->
  _sign (init (String.append key (String (ascii_of_N 0) EmptyString)) entity_id) data
  = _sign (init key entity_id') data.
Proof.
  intros Hlen. unfold _sign, init, HMAC.hexdigest, HMAC.digest. simpl secret_key.
  rewrite KeyFacts.bytes_of_append.
  change (PyStr.bytes_of (String (ascii_of_N 0) EmptyString)) with [0].
  rewrite KeyFacts.block_key_nul; [reflexivity|].
  rewrite KeyFacts.length_bytes_of. exact Hlen.
Qed.

(** X4.  Every signature is a string of 64 ASCII characters, so the digest
    side of [hmac.compare_digest] never makes it raise. *)
Theorem sign_format self (data : Dict) :
  String.length (_sign self data) = 64%nat /\ PyStr.is_ascii (_sign self data) = true.
Proof.
  unfold _sign, HMAC.hexdigest, HMAC.digest. split.
  - rewrite KeyFacts.length_hex, KeyFacts.length_digest. reflexivity.
  - apply DigestFacts.hex_ascii.
Qed.

(** X5.  [_verify_signature] accepts exactly the instance's own signature
    of the data: it answers true for it, false for an absent or an empty
    signature and for every other ASCII string, and raises [TypeError] on a
    signature that is not ASCII. *)
Theorem verify_signature_outcomes self (data : Dict) (sig : option string) :
  _verify_signature self data sig =
  match sig with
  | None => Return false
  | Some s =>
      if PyStr.is_ascii s then Return (String.eqb (_sign self data) s)
      else Raise TypeError
  end
  /\ _verify_signature self data (Some (_sign self data)) = Return true
  /\ _verify_signature self data (Some EmptyString) = Return false.
Proof.
  assert (forall s, _verify_signature self data (Some s)
                    = if PyStr.is_ascii s then Return (String.eqb (_sign self data) s)
                      else Raise TypeError) as Hsome.
  { intros s. unfold _verify_signature, compare_digest.
    unfold _sign at 1. rewrite DigestFacts.hexdigest_ascii. reflexivity. }
  assert (_verify_signature self data None = Return false) as Hnone.
  { unfold _verify_signature, compare_digest.
    unfold _sign at 1. rewrite DigestFacts.hexdigest_ascii. simpl.
    fold (_sign self data). destruct (String.eqb_spec (_sign self data) EmptyString) as [Heq|]; [|reflexivity].
    exfalso. exact (DigestFacts.hexdigest_nonempty _ _ Heq). }
  split; [destruct sig; auto|]. split.
  - apply verify_signature_iff. reflexivity.
  - exact Hnone.
Qed.

Section MoreHandshakeFacts.
Context {lib : DatetimeLib}.

(** ** Offers *)

(** X6.  [create_syn] returns an offer that verifies under the instance's
    own key, carries the instance's id, the fresh session id and a ttl of
    30 seconds, and files it as the pending entry of that id; the other
    pending entries, the registry, the key and the entity id are as
    before. *)
Theorem create_syn_effect self intent_scope semantic_boundary constraints uuid t1 t2
    syn self' :
  create_syn self intent_scope semantic_boundary constraints uuid t1 t2 = (syn, self') ->
  _verify_signature self' (SIT_SYN.to_dict syn) (SIT_SYN.signature syn) = Return true /\
  SIT_SYN.session_id syn = uuid /\
  SIT_SYN.requester_id syn = entity_id self /\
  SIT_SYN.ttl_seconds syn = 30 /\
  pending_sessions self' !! uuid
    = Some (Pending SIT_HandshakeState.SYN_SENT syn None t2) /\
  (forall other, other <> uuid ->
     pending_sessions self' !! other = pending_sessions self !! other) /\
  established_sessions self' = established_sessions self /\
  secret_key self' = secret_key self /\ entity_id self' = entity_id self.
Proof.
  unfold create_syn. intros [= <- <-]. simpl.
  split; [apply verify_signature_iff; reflexivity|].
  rewrite lookup_insert_eq. repeat (split; [reflexivity|]).
  split; [|repeat split; reflexivity].
  intros other Hother. apply lookup_insert_ne. congruence.
Qed.

(** ** The checks of [process_syn] *)


(** X9.  Whenever [process_syn] does not return a SYN-ACK (an error or an
    exception) the instance is exactly as before; when it does, only the
    pending entry of the offer's session id is written (an entry already
    there is replaced), and the registry, the key and the entity id are
    untouched. *)
Theorem process_syn_state self syn accept modified token t1 t2 t3 r self' :
  process_syn self syn accept modified token t1 t2 t3 = (r, self') ->
  ((forall syn_ack, r <> Return (Some syn_ack, None)) -> self' = self) /\
  (forall syn_ack, r = Return (Some syn_ack, None) ->
     pending_sessions self' !! SIT_SYN.session_id syn
       = Some (Pending SIT_HandshakeState.SYN_RECEIVED syn (Some syn_ack) t3) /\
     (forall other, other <> SIT_SYN.session_id syn ->
        pending_sessions self' !! other = pending_sessions self !! other) /\
     established_sessions self' = established_sessions self /\
     secret_key self' = secret_key self /\ entity_id self' = entity_id self).
Proof.
  intros Hcall. split.
  - intros Hfail. unfold process_syn in Hcall.
    destruct (_verify_signature self _ _) as [[|]|]; try (injection Hcall as _ <-; reflexivity).
    destruct (match fromisoformat _ with Some _ => _ | None => _ end);
      try (injection Hcall as _ <-; reflexivity).
    destruct accept; simpl in Hcall; try (injection Hcall as _ <-; reflexivity).
    injection Hcall as <- _. exfalso. eapply Hfail. reflexivity.
  - intros syn_ack ->. apply process_syn_returns in Hcall
      as (_ & _ & _ & _ & _ & _ & _ & _ & ->). simpl.
    rewrite lookup_insert_eq. split; [reflexivity|].
    split; [|repeat split; reflexivity].
    intros other Hother. apply lookup_insert_ne. congruence.
Qed.

(** ** The checks of [process_ack] *)

(** X13.  Whenever [process_ack] does not return a session (an error or an
    exception), the instance is exactly as before: in particular a refused
    or mis-signed confirmation leaves the pending entry in place. *)
Theorem process_ack_failure_state self ack t1 t2 r self' :
  process_ack self ack t1 t2 = (r, self') ->
  (forall session, r <> Return (Some session, None)) ->
  self' = self.
Proof.
  unfold process_ack. intros Hcall Hfail.
  destruct (pending_sessions self !! _); [|injection Hcall as _ <-; reflexivity].
  destruct (_verify_signature self _ _) as [[|]|];
    try (injection Hcall as _ <-; reflexivity).
  destruct (pending_syn_ack _); [|injection Hcall as _ <-; reflexivity].
  destruct (negb (bool_decide _)); [injection Hcall as _ <-; reflexivity|].
  destruct (negb (String.eqb _ _)); [injection Hcall as _ <-; reflexivity|].
  destruct (negb (SIT_ACK.confirmed ack)); [injection Hcall as _ <-; reflexivity|].
  injection Hcall as <- _. exfalso. eapply Hfail. reflexivity.
Qed.

(** X14.  A confirmation with [confirmed = False] that passes every other
    check of [process_ack] is answered [REQUESTER_DENIED], and the pending
    entry stays. *)
Theorem process_ack_unconfirmed self ack t1 t2 entry syn_ack :
  pending_sessions self !! SIT_ACK.session_id ack = Some entry ->
  pending_syn_ack entry = Some syn_ack ->
  SIT_ACK.signature ack = Some (_sign self (SIT_ACK.to_dict ack)) ->
  SIT_ACK.syn_ack_signature ack = SIT_SYN_ACK.signature syn_ack ->
  SIT_ACK.session_token ack = SIT_SYN_ACK.session_token syn_ack ->
  SIT_ACK.confirmed ack = false ->
  process_ack self ack t1 t2
    = (Return (None, Some SIT_HandshakeError.REQUESTER_DENIED), self).
Proof.
  intros Hentry Hkept Hsig Hbind Htok Hconf. unfold process_ack.
  apply verify_signature_iff in Hsig. rewrite Hentry, Hsig, Hkept.
  rewrite bool_decide_eq_true_2 by exact Hbind.
  rewrite Htok, String.eqb_refl, Hconf. reflexivity.
Qed.

(** X15.  [process_ack] on a pending entry that [create_syn] wrote (one
    without a stored SYN-ACK) raises [KeyError] as soon as the
    confirmation's signature verifies; the instance is unchanged. *)
Theorem process_ack_on_requester_entry self ack t1 t2 entry :
  pending_sessions self !! SIT_ACK.session_id ack = Some entry ->
  pending_syn_ack entry = None ->
  SIT_ACK.signature ack = Some (_sign self (SIT_ACK.to_dict ack)) ->
  process_ack self ack t1 t2 = (Raise KeyError, self).
Proof.
  intros Hentry Hkept Hsig. unfold process_ack.
  apply verify_signature_iff in Hsig. rewrite Hentry, Hsig, Hkept. reflexivity.
Qed.

(** X16.  A packet whose signature is not ASCII makes each processing
    method raise [TypeError] and change nothing: [process_syn] always,
    [process_syn_ack] and [process_ack] when the session id is pending. *)
Theorem non_ascii_signature_raises self s :
  PyStr.is_ascii s = false ->
  (forall syn accept modified token t1 t2 t3,
     SIT_SYN.signature syn = Some s ->
     process_syn self syn accept modified token t1 t2 t3 = (Raise TypeError, self)) /\
  (forall syn_ack t1 t2 t3 t4,
     SIT_SYN_ACK.signature syn_ack = Some s ->
     is_Some (pending_sessions self !! SIT_SYN_ACK.session_id syn_ack) ->
     process_syn_ack self syn_ack t1 t2 t3 t4 = (Raise TypeError, self)) /\
  (forall ack t1 t2,
     SIT_ACK.signature ack = Some s ->
     is_Some (pending_sessions self !! SIT_ACK.session_id ack) ->
     process_ack self ack t1 t2 = (Raise TypeError, self)).
Proof.
  intros Hs.
  assert (forall data, _verify_signature self data (Some s) = Raise TypeError) as Hraise.
  { intros data. unfold _verify_signature, compare_digest.
    rewrite Hs, andb_false_r. reflexivity. }
  split; [|split].
  - intros syn ? ? ? ? ? ? Hsig. unfold process_syn. rewrite Hsig, Hraise. reflexivity.
  - intros syn_ack ? ? ? ? Hsig [entry Hentry]. unfold process_syn_ack.
    rewrite Hentry, Hsig, Hraise. reflexivity.
  - intros ack ? ? Hsig [entry Hentry]. unfold process_ack.
    rewrite Hentry, Hsig, Hraise. reflexivity.
Qed.

(** X17.  A packet without a signature ([None] or the empty string) is
    answered [SIGNATURE_INVALID] by each processing method and changes
    nothing: [process_syn] always, [process_syn_ack] and [process_ack] when
    the session id is pending. *)
Theorem unsigned_packet_rejected self sig :
  sig = None \/ sig = Some EmptyString ->
  (forall syn accept modified token t1 t2 t3,
     SIT_SYN.signature syn = sig ->
     process_syn self syn accept modified token t1 t2 t3
       = (Return (None, Some SIT_HandshakeError.SIGNATURE_INVALID), self)) /\
  (forall syn_ack t1 t2 t3 t4,
     SIT_SYN_ACK.signature syn_ack = sig ->
     is_Some (pending_sessions self !! SIT_SYN_ACK.session_id syn_ack) ->
     process_syn_ack self syn_ack t1 t2 t3 t4
       = (Return (None, Some SIT_HandshakeError.SIGNATURE_INVALID), self)) /\
  (forall ack t1 t2,
     SIT_ACK.signature ack = sig ->
     is_Some (pending_sessions self !! SIT_ACK.session_id ack) ->
     process_ack self ack t1 t2
       = (Return (None, Some SIT_HandshakeError.SIGNATURE_INVALID), self)).
Proof.
  intros Hsig.
  assert (forall data, _verify_signature self data sig = Return false) as Hfalse.
  { intros data.
    assert (_verify_signature self data sig = _verify_signature self data None) as ->
      by (destruct Hsig as [->| ->]; reflexivity).
    destruct (_verify_signature self data None) as [[|]|e] eqn:Hverify.
    - apply verify_signature_iff in Hverify. discriminate.
    - reflexivity.
    - apply verify_signature_raises in Hverify as (? & [=] & _). }
  split; [|split].
  - intros syn ? ? ? ? ? ? <-. unfold process_syn. rewrite Hfalse. reflexivity.
  - intros syn_ack ? ? ? ? <- [entry Hentry]. unfold process_syn_ack.
    rewrite Hentry, Hfalse. reflexivity.
  - intros ack ? ? <- [entry Hentry]. unfold process_ack.
    rewrite Hentry, Hfalse. reflexivity.
Qed.

End MoreHandshakeFacts.

Module MergeFacts.
Import PyDict.

Section Facts.
Context {V : Type}.
Implicit Types (d a b : dict V) (k : string) (v : V).

Lemma set_fresh k v d : ~ In k (map fst d) -> set k v d = d ++ [(k, v)].
Proof.
  induction d as [|[k0 v0] r IH]; simpl; intros Hk; [reflexivity|].
  destruct (String.eqb_spec k k0) as [->|]; [tauto|]. rewrite IH by tauto. reflexivity.
Qed.

Lemma update_fresh (l : dict V) : forall d,
  wf (d ++ l) ->
  fold_left (fun d kv => set (fst kv) (snd kv) d) l d = d ++ l.
Proof.
  induction l as [|[k v] r IH]; intros d Hwf; simpl.
  - rewrite app_nil_r. reflexivity.
  - rewrite set_fresh.
    + rewrite IH; rewrite <- app_assoc; [reflexivity|exact Hwf].
    + unfold wf in Hwf. rewrite map_app in Hwf. simpl in Hwf.
      apply NoDup_app in Hwf as (_ & Hdisj & _).
      intros Hin. apply list_elem_of_In in Hin. apply (Hdisj _ Hin). left.
Qed.

(** Overlaying nothing gives the dict back. *)
Lemma merge_empty a : wf a -> merge a [] = a.
Proof.
  intros Hwf. unfold merge. rewrite app_nil_r. apply (update_fresh a []). exact Hwf.
Qed.

End Facts.
End MergeFacts.

Section SessionFacts.
Context {lib : DatetimeLib}.

(** X20.  The two sessions of a complete handshake agree on every field
    but the two timestamps: besides the four fields of the negotiation they
    name the same requester and responder, carry the same semantic mode,
    are both [ESTABLISHED] and hold the same signature chain, the
    signatures of the offer, the answer and the confirmation in order. *)
Theorem handshake_sessions_mirror alice bob syn syn_ack ack alice2 bob2 session_b :
  complete_handshake alice bob syn syn_ack ack alice2 bob2 session_b ->
  exists session_a,
    established_sessions alice2 !! SIT_SYN.session_id syn = Some session_a /\
    SIT_Session.requester_id session_a = entity_id alice /\
    SIT_Session.requester_id session_b = entity_id alice /\
    SIT_Session.responder_id session_a = entity_id bob /\
    SIT_Session.responder_id session_b = entity_id bob /\
    SIT_Session.semantic_mode session_a = SIT_Session.semantic_mode session_b /\
    SIT_Session.state session_a = SIT_HandshakeState.ESTABLISHED /\
    SIT_Session.state session_b = SIT_HandshakeState.ESTABLISHED /\
    SIT_Session.signature_chain session_a
      = [SIT_SYN.signature syn; SIT_SYN_ACK.signature syn_ack; SIT_ACK.signature ack] /\
    SIT_Session.signature_chain session_b
      = [SIT_SYN.signature syn; SIT_SYN_ACK.signature syn_ack; SIT_ACK.signature ack].
Proof.
  intros [? ? ? uuid ? t2 syn' alice1 ? ? ? ? ? t5 syn_ack' bob1
          t6 ? ? ? ack' alice2' t10 t11 session_b' bob2'
          Hsyn Hanswer Hconfirm Hsettle].
  unfold create_syn in Hsyn. injection Hsyn as <- <-.
  unfold process_syn in Hanswer.
  destruct (_verify_signature bob _ _) as [[|]|]; try discriminate.
  destruct (match fromisoformat _ with Some _ => _ | None => _ end); try discriminate.
  destruct accept; simpl in Hanswer; try discriminate.
  injection Hanswer as <- <-.
  unfold process_syn_ack in Hconfirm. simpl in Hconfirm.
  rewrite lookup_insert_eq in Hconfirm.
  destruct (_verify_signature _ _ _) as [[|]|]; try discriminate.
  simpl in Hconfirm. destruct (negb (bool_decide _)); try discriminate.
  destruct (_ <? _); simpl in Hconfirm; try discriminate.
  injection Hconfirm as <- <-.
  unfold process_ack in Hsettle. simpl in Hsettle.
  rewrite lookup_insert_eq in Hsettle.
  destruct (_verify_signature _ _ _) as [[|]|]; try discriminate.
  simpl in Hsettle. destruct (negb (bool_decide _)); try discriminate.
  destruct (negb (String.eqb _ _)); try discriminate.
  injection Hsettle as <- <-.
  eexists. simpl. rewrite lookup_insert_eq.
  repeat (split; [reflexivity|]). reflexivity.
Qed.

(** X21.  After a complete handshake neither instance holds a pending
    entry for the session id any more, and [get_session] returns the
    stored session on both sides. *)
Theorem handshake_clears_pending alice bob syn syn_ack ack alice2 bob2 session_b :
  complete_handshake alice bob syn syn_ack ack alice2 bob2 session_b ->
  pending_sessions alice2 !! SIT_SYN.session_id syn = None /\
  pending_sessions bob2 !! SIT_SYN.session_id syn = None /\
  is_Some (fst (get_session alice2 (SIT_SYN.session_id syn))) /\
  fst (get_session bob2 (SIT_SYN.session_id syn)) = Some session_b.
Proof.
  intros [? ? ? ? ? ? syn' alice1 ? ? ? ? ? ? syn_ack' bob1
          ? ? ? ? ack' alice2' ? ? session_b' bob2'
          Hsyn Hanswer Hconfirm Hsettle].
  apply process_syn_returns in Hanswer as (_ & _ & Hid & _).
  apply process_syn_ack_returns in Hconfirm
    as (_ & session_a & _ & _ & _ & Hack_id & _ & _ & _ & _ & _ & _ & _ & _ & Ha_est & Ha_pend).
  apply process_ack_returns in Hsettle
    as (_ & _ & _ & _ & _ & _ & _ & _ & _ & _ & _ & _ & Hb_est & Hb_pend).
  rewrite Hack_id, Hid in Hb_est, Hb_pend. rewrite Hid in Ha_est, Ha_pend.
  unfold get_session. simpl.
  rewrite Ha_pend, Hb_pend, Ha_est, Hb_est, !lookup_delete_eq, !lookup_insert_eq.
  repeat split. eexists. reflexivity.
Qed.

(** ** The requester's side, once more *)


(** X11.  An answer is consumed once: after [process_syn_ack] has accepted
    it, or has answered [TIMEOUT], processing the same answer again returns
    [SCOPE_MISMATCH] and changes nothing. *)
Theorem process_syn_ack_replay self syn_ack t1 t2 t3 t4 r self' t1' t2' t3' t4' :
  process_syn_ack self syn_ack t1 t2 t3 t4 = (r, self') ->
  (exists ack, r = Return (Some ack, None))
  \/ r = Return (None, Some SIT_HandshakeError.TIMEOUT) ->
  process_syn_ack self' syn_ack t1' t2' t3' t4'
    = (Return (None, Some SIT_HandshakeError.SCOPE_MISMATCH), self').
Proof.
  intros Hcall Hr.
  assert (pending_sessions self' !! SIT_SYN_ACK.session_id syn_ack = None) as Hgone.
  { destruct Hr as [[ack ->]| ->].
    - apply process_syn_ack_returns in Hcall
        as (? & ? & _ & _ & _ & _ & _ & _ & _ & _ & _ & _ & _ & _ & _ & ->).
      apply lookup_delete_eq.
    - unfold process_syn_ack in Hcall.
      destruct (pending_sessions self !! _); [|discriminate].
      destruct (_verify_signature self _ _) as [[|]|]; try discriminate.
      destruct (negb (bool_decide _)); try discriminate.
      destruct (_is_timeout _ _ _) as [[|]|]; try discriminate.
      injection Hcall as <-. apply lookup_delete_eq. }
  unfold process_syn_ack. rewrite Hgone. reflexivity.
Qed.

(** X19.  [process_syn_ack] and [process_ack] touch one session id only:
    whatever they answer, the pending entries and the sessions stored under
    every other id, the secret key and the entity id are as before. *)
Theorem processing_is_local self other :
  (forall syn_ack t1 t2 t3 t4,
     other <> SIT_SYN_ACK.session_id syn_ack ->
     let self' := snd (process_syn_ack self syn_ack t1 t2 t3 t4) in
     pending_sessions self' !! other = pending_sessions self !! other /\
     established_sessions self' !! other = established_sessions self !! other /\
     secret_key self' = secret_key self /\ entity_id self' = entity_id self) /\
  (forall ack t1 t2,
     other <> SIT_ACK.session_id ack ->
     let self' := snd (process_ack self ack t1 t2) in
     pending_sessions self' !! other = pending_sessions self !! other /\
     established_sessions self' !! other = established_sessions self !! other /\
     secret_key self' = secret_key self /\ entity_id self' = entity_id self).
Proof.
  split.
  - intros syn_ack ? ? ? ? Hother. unfold process_syn_ack.
    destruct (pending_sessions self !! SIT_SYN_ACK.session_id syn_ack);
      [|repeat split; reflexivity].
    destruct (_verify_signature self _ _) as [[|]|]; try (repeat split; reflexivity).
    destruct (negb (bool_decide _)); [repeat split; reflexivity|].
    destruct (_is_timeout _ _ _) as [[|]|]; simpl;
      rewrite ?lookup_delete_ne, ?lookup_insert_ne by congruence;
      repeat split; reflexivity.
  - intros ack ? ? Hother. unfold process_ack.
    destruct (pending_sessions self !! SIT_ACK.session_id ack);
      [|repeat split; reflexivity].
    destruct (_verify_signature self _ _) as [[|]|]; try (repeat split; reflexivity).
    destruct (pending_syn_ack _); [|repeat split; reflexivity].
    destruct (negb (bool_decide _)); [repeat split; reflexivity|].
    destruct (negb (String.eqb _ _)); [repeat split; reflexivity|].
    destruct (negb (SIT_ACK.confirmed ack)); simpl;
      rewrite ?lookup_delete_ne, ?lookup_insert_ne by congruence;
      repeat split; reflexivity.
Qed.

(** X23.  When the responder modifies nothing ([modified_constraints] is
    [None] or empty), the constraints every session of that answer agrees
    on are the constraints of the offer, unchanged. *)
Theorem unmodified_constraints_agreed self syn modified token t1 t2 t3 syn_ack self'
    session :
  process_syn self syn true modified token t1 t2 t3 = (Return (Some syn_ack, None), self') ->
  modified = None \/ modified = Some [] ->
  PyDict.wf (SIT_SYN.constraints syn) ->
  materializes syn_ack session ->
  SIT_Session.agreed_constraints session = SIT_SYN.constraints syn.
Proof.
  intros Hanswer Hmod Hwf Hm.
  assert (SIT_SYN_ACK.constraints_accepted syn_ack = SIT_SYN.constraints syn
          /\ SIT_SYN_ACK.constraints_modified syn_ack = []) as [Hacc Hnone].
  { unfold process_syn in Hanswer.
    destruct (_verify_signature self _ _) as [[|]|]; try discriminate.
    destruct (match fromisoformat _ with Some _ => _ | None => _ end); try discriminate.
    simpl in Hanswer. injection Hanswer as <- _.
    destruct Hmod as [->| ->]; split; reflexivity. }
  assert (SIT_Session.agreed_constraints session
          = PyDict.merge (SIT_SYN_ACK.constraints_accepted syn_ack)
                         (SIT_SYN_ACK.constraints_modified syn_ack)) as ->.
  { destruct Hm as [? ? ? ? ? ? ? ? ? Hcall Hstored|? ? ? ? ? ? ? ? Hcall Hentry Hkept].
    - apply process_syn_ack_returns in Hcall
        as (? & stored & _ & _ & _ & _ & _ & _ & _ & _ & _ & _ & _ & Hcons & Hest & _).
      rewrite Hest, lookup_insert_eq in Hstored. congruence.
    - apply process_ack_returns in Hcall
        as (? & ? & ? & ? & _ & _ & _ & _ & _ & _ & _ & Hcons & _).
      congruence. }
  rewrite Hacc, Hnone. apply MergeFacts.merge_empty. exact Hwf.
Qed.

(** ** Validity over time *)

(** X24.  A session that [is_session_valid] reports invalid stays invalid
    at every later clock reading, as long as the registry is not written:
    there is no way back from expiry. *)
Theorem is_session_valid_monotone self session_id now later :
  fst (is_session_valid self session_id now) = false ->
  now <= later ->
  fst (is_session_valid self session_id later) = false.
Proof.
  unfold is_session_valid. intros Hinvalid Hlater.
  destruct (established_sessions self !! session_id); [|reflexivity].
  destruct (fromisoformat _); [|reflexivity].
  simpl in *. apply Z.ltb_ge in Hinvalid. apply Z.ltb_ge. lia.
Qed.

End SessionFacts.

Section ContractFacts.
Context {lib : DatetimeLib}.


(** X12.  [process_ack] never looks at the clock to decide: it returns a
    session exactly when the session id is pending with a stored answer,
    the confirmation carries the instance's own HMAC, is bound to the
    stored answer's signature and token, and is confirmed.  It never
    answers [TIMEOUT], however late the confirmation arrives. *)
Theorem process_ack_accepts_iff self ack t1 t2 :
  ((exists session, fst (process_ack self ack t1 t2) = Return (Some session, None)) <->
   exists entry syn_ack,
     pending_sessions self !! SIT_ACK.session_id ack = Some entry /\
     pending_syn_ack entry = Some syn_ack /\
     SIT_ACK.signature ack = Some (_sign self (SIT_ACK.to_dict ack)) /\
     SIT_ACK.syn_ack_signature ack = SIT_SYN_ACK.signature syn_ack /\
     SIT_ACK.session_token ack = SIT_SYN_ACK.session_token syn_ack /\
     SIT_ACK.confirmed ack = true) /\
  fst (process_ack self ack t1 t2) <> Return (None, Some SIT_HandshakeError.TIMEOUT).
Proof.
  split.
  - split.
    + intros [session Hcall].
      destruct (process_ack self ack t1 t2) as [r self'] eqn:Hrun. simpl in Hcall. subst r.
      apply process_ack_returns in Hrun
        as (entry & syn_ack & ? & ? & Hverify & ? & ? & ? & _).
      apply verify_signature_iff in Hverify. exists entry, syn_ack.
      repeat (split; [assumption|]). assumption.
    + intros (entry & syn_ack & Hentry & Hkept & Hsig & Hbind & Htok & Hconf).
      apply verify_signature_iff in Hsig. unfold process_ack.
      rewrite Hentry, Hsig, Hkept. rewrite bool_decide_eq_true_2 by exact Hbind.
      rewrite Htok, String.eqb_refl, Hconf. simpl. eauto.
  - unfold process_ack.
    destruct (pending_sessions self !! _); [|discriminate].
    destruct (_verify_signature self _ _) as [[|]|]; try discriminate.
    destruct (pending_syn_ack _); [|discriminate].
    destruct (negb (bool_decide _)); [discriminate|].
    destruct (negb (String.eqb _ _)); [discriminate|].
    destruct (negb (SIT_ACK.confirmed ack)); discriminate.
Qed.

(** X18.  A processing method that returns gives either a value and no
    error, or no value and an error, never both and never neither; the
    error is [SIGNATURE_INVALID], [TIMEOUT] or [REQUESTER_DENIED] from
    [process_syn], [SCOPE_MISMATCH], [SIGNATURE_INVALID] or [TIMEOUT] from
    [process_syn_ack], and [SCOPE_MISMATCH], [SIGNATURE_INVALID] or
    [REQUESTER_DENIED] from [process_ack].  The codes [OK],
    [CONSTRAINT_CONFLICT] and [SEMANTIC_INCOMPATIBLE] are never returned. *)
Theorem error_vocabulary self :
  (forall syn accept modified token t1 t2 t3,
     replies [SIT_HandshakeError.SIGNATURE_INVALID; SIT_HandshakeError.TIMEOUT;
              SIT_HandshakeError.REQUESTER_DENIED]
       (fst (process_syn self syn accept modified token t1 t2 t3))) /\
  (forall syn_ack t1 t2 t3 t4,
     replies [SIT_HandshakeError.SCOPE_MISMATCH; SIT_HandshakeError.SIGNATURE_INVALID;
              SIT_HandshakeError.TIMEOUT]
       (fst (process_syn_ack self syn_ack t1 t2 t3 t4))) /\
  (forall ack t1 t2,
     replies [SIT_HandshakeError.SCOPE_MISMATCH; SIT_HandshakeError.SIGNATURE_INVALID;
              SIT_HandshakeError.REQUESTER_DENIED]
       (fst (process_ack self ack t1 t2))).
Proof.
  split; [|split].
  - intros. unfold process_syn.
    destruct (_verify_signature self _ _) as [[|]|]; simpl; auto.
    destruct (match fromisoformat _ with Some _ => _ | None => _ end); simpl; auto.
    destruct accept; simpl; auto.
  - intros. unfold process_syn_ack.
    destruct (pending_sessions self !! _); simpl; auto.
    destruct (_verify_signature self _ _) as [[|]|]; simpl; auto.
    destruct (negb (bool_decide _)); simpl; auto.
    destruct (_ <? _); simpl; auto.
  - intros. unfold process_ack.
    destruct (pending_sessions self !! _); simpl; auto.
    destruct (_verify_signature self _ _) as [[|]|]; simpl; auto.
    destruct (pending_syn_ack _); simpl; auto.
    destruct (negb (bool_decide _)); simpl; auto.
    destruct (negb (String.eqb _ _)); simpl; auto.
    destruct (negb (SIT_ACK.confirmed ack)); simpl; auto.
Qed.

End ContractFacts.

(** * The further properties on the worked handshake *)

Module MoreDemoFacts.
Import Demo DemoMore.

Lemma sign_insertion_order_witness :
  _sign alice (SIT_SYN.to_dict AB.syn) = _sign alice (rev (SIT_SYN.to_dict AB.syn)).
Proof.
  apply (sign_insertion_order alice (SIT_SYN.to_dict AB.syn) (rev (SIT_SYN.to_dict AB.syn))).
  - apply Permutation_rev.
  - apply (bool_decide_unpack _). vm_compute. exact I.
Defined.

Lemma sign_trailing_nul_witness :
  _sign dave (SIT_SYN.to_dict CD.syn) = _sign carol (SIT_SYN.to_dict CD.syn).
Proof.
  apply (sign_trailing_nul "k" "dave-001" "carol-001" (SIT_SYN.to_dict CD.syn)).
  simpl. lia.
Defined.

Lemma create_syn_effect_witness :
  _verify_signature AB.requester1 (SIT_SYN.to_dict AB.syn) (SIT_SYN.signature AB.syn)
    = Return true /\
  pending_sessions AB.requester1 !! uuid
    = Some (Pending SIT_HandshakeState.SYN_SENT AB.syn None t0).
Proof.
  destruct (create_syn_effect alice "read-profile" boundary (Some accepted) uuid t0 t0
              AB.syn AB.requester1)
    as (Hverify & _ & _ & _ & Hentry & _).
  - vm_compute; reflexivity.
  - split; assumption.
Defined.

Lemma process_syn_state_witness :
  pending_sessions AB.responder1 !! SIT_SYN.session_id AB.syn
    = Some (Pending SIT_HandshakeState.SYN_RECEIVED AB.syn (Some AB.syn_ack) (t0 + second)) /\
  established_sessions AB.responder1 = established_sessions bob.
Proof.
  destruct (process_syn_state bob AB.syn true (Some modified) token
              (t0 + second) (t0 + second) (t0 + second)
              (Return (Some AB.syn_ack, None)) AB.responder1)
    as [_ Hsuccess].
  - vm_compute; reflexivity.
  - destruct (Hsuccess AB.syn_ack eq_refl) as (Hentry & _ & Hest & _). split; assumption.
Defined.

Lemma process_syn_ack_replay_witness :
  process_syn_ack alice0_timed_out syn_ack0 (t0 + 2) t0 t0 t0
    = (Return (None, Some SIT_HandshakeError.SCOPE_MISMATCH), alice0_timed_out).
Proof.
  apply (process_syn_ack_replay alice0 syn_ack0 (t0 + 1) t0 t0 t0
           (Return (None, Some SIT_HandshakeError.TIMEOUT))).
  - vm_compute; reflexivity.
  - right. reflexivity.
Defined.

Lemma process_ack_failure_state_witness :
  fst (process_ack AB.responder1 AB.forged_ack t0 t0)
    = Return (None, Some SIT_HandshakeError.SCOPE_MISMATCH) /\
  snd (process_ack AB.responder1 AB.forged_ack t0 t0) = AB.responder1.
Proof.
  split; [vm_compute; reflexivity|].
  apply (process_ack_failure_state AB.responder1 AB.forged_ack t0 t0
           (Return (None, Some SIT_HandshakeError.SCOPE_MISMATCH))).
  - vm_compute; reflexivity.
  - discriminate.
Defined.

Lemma process_ack_unconfirmed_witness :
  process_ack AB.responder1 declined_ack (t0 + 3 * second) (t0 + 3 * second)
    = (Return (None, Some SIT_HandshakeError.REQUESTER_DENIED), AB.responder1).
Proof.
  apply (process_ack_unconfirmed AB.responder1 declined_ack
           (t0 + 3 * second) (t0 + 3 * second) AB.entry AB.syn_ack).
  - vm_compute; reflexivity.
  - reflexivity.
  - vm_compute; reflexivity.
  - reflexivity.
  - reflexivity.
  - reflexivity.
Defined.

Lemma process_ack_on_requester_entry_witness :
  process_ack AB.requester1 AB.ack (t0 + 3 * second) (t0 + 3 * second)
    = (Raise KeyError, AB.requester1).
Proof.
  apply (process_ack_on_requester_entry AB.requester1 AB.ack
           (t0 + 3 * second) (t0 + 3 * second)
           (Pending SIT_HandshakeState.SYN_SENT AB.syn None t0)).
  - vm_compute; reflexivity.
  - reflexivity.
  - vm_compute; reflexivity.
Defined.

Lemma non_ascii_signature_raises_witness :
  process_syn bob garbled_syn true None token t0 t0 t0 = (Raise TypeError, bob).
Proof.
  destruct (non_ascii_signature_raises bob e_acute) as [Hsyn _].
  - vm_compute; reflexivity.
  - apply Hsyn. reflexivity.
Defined.

Lemma unsigned_packet_rejected_witness :
  process_syn bob unsigned_syn true None token t0 t0 t0
    = (Return (None, Some SIT_HandshakeError.SIGNATURE_INVALID), bob).
Proof.
  destruct (unsigned_packet_rejected bob None) as [Hsyn _].
  - left. reflexivity.
  - apply Hsyn. reflexivity.
Defined.

(** The four steps of the run between alice and bob. *)
Ltac run_ab :=
  apply (Complete alice bob
           "read-profile" boundary (Some accepted) uuid t0 t0 AB.syn AB.requester1
           true (Some modified) token (t0 + second) (t0 + second) (t0 + second)
           AB.syn_ack AB.responder1
           (t0 + 2 * second) (t0 + 2 * second) (t0 + 2 * second) (t0 + 2 * second)
           AB.ack AB.requester2 (t0 + 3 * second) (t0 + 3 * second)
           AB.session AB.responder2);
  vm_compute; reflexivity.

Lemma handshake_sessions_mirror_witness :
  exists session_a,
    established_sessions AB.requester2 !! SIT_SYN.session_id AB.syn = Some session_a /\
    SIT_Session.requester_id session_a = entity_id alice /\
    SIT_Session.requester_id AB.session = entity_id alice /\
    SIT_Session.responder_id session_a = entity_id bob /\
    SIT_Session.responder_id AB.session = entity_id bob /\
    SIT_Session.semantic_mode session_a = SIT_Session.semantic_mode AB.session /\
    SIT_Session.state session_a = SIT_HandshakeState.ESTABLISHED /\
    SIT_Session.state AB.session = SIT_HandshakeState.ESTABLISHED /\
    SIT_Session.signature_chain session_a
      = [SIT_SYN.signature AB.syn; SIT_SYN_ACK.signature AB.syn_ack;
         SIT_ACK.signature AB.ack] /\
    SIT_Session.signature_chain AB.session
      = [SIT_SYN.signature AB.syn; SIT_SYN_ACK.signature AB.syn_ack;
         SIT_ACK.signature AB.ack].
Proof.
  apply (handshake_sessions_mirror alice bob AB.syn AB.syn_ack AB.ack
           AB.requester2 AB.responder2 AB.session).
  run_ab.
Defined.

Lemma handshake_clears_pending_witness :
  pending_sessions AB.requester2 !! SIT_SYN.session_id AB.syn = None /\
  pending_sessions AB.responder2 !! SIT_SYN.session_id AB.syn = None /\
  is_Some (fst (get_session AB.requester2 (SIT_SYN.session_id AB.syn))) /\
  fst (get_session AB.responder2 (SIT_SYN.session_id AB.syn)) = Some AB.session.
Proof.
  apply (handshake_clears_pending alice bob AB.syn AB.syn_ack AB.ack
           AB.requester2 AB.responder2 AB.session).
  run_ab.
Defined.


Lemma unmodified_constraints_agreed_witness :
  SIT_Session.agreed_constraints plain_session = SIT_SYN.constraints AB.syn.
Proof.
  apply (unmodified_constraints_agreed bob AB.syn None token
           (t0 + second) (t0 + second) (t0 + second) plain_syn_ack plain_responder1).
  - vm_compute; reflexivity.
  - left. reflexivity.
  - apply (bool_decide_unpack _). vm_compute. exact I.
  - apply (by_requester AB.requester1 plain_syn_ack
             (t0 + 2 * second) (t0 + 2 * second) (t0 + 2 * second) (t0 + 2 * second)
             plain_ack plain_requester2); vm_compute; reflexivity.
Defined.

Lemma is_session_valid_monotone_witness :
  fst (is_session_valid AB.responder2 uuid (t0 + 3 * second + 2 * PyTime.one_hour)) = false.
Proof.
  apply (is_session_valid_monotone AB.responder2 uuid (t0 + 3 * second + PyTime.one_hour)).
  - vm_compute; reflexivity.
  - vm_compute. discriminate.
Defined.

End MoreDemoFacts.
